(** * Delaware bid scraper: a shallow embedding of [scraper.py] and [end.py]

    The scraper walks a tabbed, paginated grid in a browser, opens the detail
    dialog of every row, merges the row's summary with the dialog's fields and
    appends the merged record to an Excel workbook, skipping identifiers that
    an earlier run already stored.

    The browser and the file system are the environment.  A row, a page and a
    dialog are records that say what each Selenium call on them returns or
    raises; the workbook is a header and a list of rows; every call the
    program makes on the browser, and every log line, is appended to a trace.
    Python exceptions are an explicit [Raise] result. *)

From Stdlib Require Import Ascii String.
From stdpp Require Import base option list gmap sets strings pretty.

#[local] Set Warnings "-clear-no-such-hyp".

Open Scope string_scope.
Open Scope list_scope.

(** ** Python values, strings and dictionaries *)

(** A value stored in a record: [None] or a [str]. *)
Inductive pyval :=
| PyNone
| PyStr (s : string).

#[global] Instance pyval_eq_dec : EqDecision pyval.
Proof. solve_decision. Defined.

(** [str(v)], also what an f-string prints for [v]. *)
Definition py_str (v : pyval) : string :=
  match v with
  | PyNone => "None"
  | PyStr s => s
  end.

(** What [get_attribute] returns. *)
Definition of_attr (a : option string) : pyval :=
  match a with
  | None => PyNone
  | Some s => PyStr s
  end.

Fixpoint has_char (c : ascii) (s : string) : bool :=
  match s with
  | EmptyString => false
  | String c' s' => Ascii.eqb c c' || has_char c s'
  end.

Definition hex_digit (n : nat) : ascii :=
  nth n (list_ascii_of_string "0123456789abcdef") "0"%char.

(** One character inside the quotes of [repr(s)]: the backslash and the
    quote in use are escaped, tab, newline and carriage return have their
    letter, the other control characters are written in hexadecimal. *)
Definition repr_char (quote c : ascii) : string :=
  let backslash := "092"%char in
  if Ascii.eqb c backslash || Ascii.eqb c quote then String backslash (String c "")
  else if Ascii.eqb c "009"%char then String backslash "t"
  else if Ascii.eqb c "010"%char then String backslash "n"
  else if Ascii.eqb c "013"%char then String backslash "r"
  else
    let n := nat_of_ascii c in
    if Nat.ltb n 32 || Nat.eqb n 127 then
      String backslash
        (String "x" (String (hex_digit (n / 16)) (String (hex_digit (n mod 16)) "")))
    else String c "".

Fixpoint repr_chars (quote : ascii) (s : string) : string :=
  match s with
  | EmptyString => EmptyString
  | String c s' => repr_char quote c +:+ repr_chars quote s'
  end.

(** [repr(s)] for a [str]: in single quotes, unless the text has a single
    quote and no double quote. *)
Definition repr_str (s : string) : string :=
  let quote :=
    if has_char "'"%char s && negb (has_char "034"%char s) then "034"%char else "'"%char in
  String quote (repr_chars quote s) +:+ String quote "".

(** [repr(v)], as [str] of a dictionary prints its keys and values. *)
Definition py_repr (v : pyval) : string :=
  match v with
  | PyNone => "None"
  | PyStr s => repr_str s
  end.

(** The ASCII characters for which [isspace()] holds. *)
Definition is_space (c : ascii) : bool :=
  match c with
  | " "%char | "009"%char | "010"%char | "011"%char | "012"%char | "013"%char
  | "028"%char | "029"%char | "030"%char | "031"%char => true
  | _ => false
  end.

Fixpoint lstrip (s : string) : string :=
  match s with
  | String c s' => if is_space c then lstrip s' else s
  | EmptyString => EmptyString
  end.

(** [s.strip()] *)
Definition strip (s : string) : string :=
  String.rev (lstrip (String.rev (lstrip s))).

Fixpoint is_prefix (p s : string) : bool :=
  match p, s with
  | EmptyString, _ => true
  | String a p', String b s' => if Ascii.eqb a b then is_prefix p' s' else false
  | String _ _, EmptyString => false
  end.

(** [p in s] on strings. *)
Fixpoint contains (p s : string) : bool :=
  is_prefix p s ||
  match s with
  | EmptyString => false
  | String _ s' => contains p s'
  end.

(** A Python [dict] with string keys: insertion ordered, keys unique. *)
Definition dict := list (string * pyval).

Definition keys (d : dict) : list string := d.*1.
Definition values (d : dict) : list pyval := d.*2.
Arguments keys : simpl never.
Arguments values : simpl never.

Fixpoint dict_get (k : string) (d : dict) : option pyval :=
  match d with
  | [] => None
  | (k', v) :: d' => if String.eqb k k' then Some v else dict_get k d'
  end.

(** [d[k] = v]: an existing key keeps its place, a new key goes last. *)
Fixpoint dict_set (k : string) (v : pyval) (d : dict) : dict :=
  match d with
  | [] => [(k, v)]
  | (k', v') :: d' =>
      if String.eqb k k' then (k, v) :: d' else (k', v') :: dict_set k v d'
  end.

(** [{**a, **b}], and [a.update(b)]. *)
Definition dict_update (a b : dict) : dict :=
  foldl (fun acc kv => dict_set kv.1 kv.2 acc) a b.

(** A dictionary display [{k1: v1, ...}]. *)
Definition dict_lit (kvs : list (string * pyval)) : dict := dict_update [] kvs.

Fixpoint join (sep : string) (l : list string) : string :=
  match l with
  | [] => ""
  | [x] => x
  | x :: l' => x +:+ sep +:+ join sep l'
  end.

(** [str(d)] for a dictionary. *)
Definition dict_str (d : dict) : string :=
  "{" +:+ join ", " (map (fun kv => py_repr (PyStr kv.1) +:+ ": " +:+ py_repr kv.2) d) +:+ "}".

(** ** The environment: browser, workbook, log *)

Inductive exn :=
| TimeoutException
| NoSuchElementException
| WebDriverException
| TypeError
| PermissionError
| OSError
| InvalidFileException.

(** The text [f"{e}"] prints for an exception.  The library that raises
    it words the text: the texts here stand for it, and the general
    statements name it only as [exn_str e]. *)
Definition exn_str (e : exn) : string :=
  match e with
  | TimeoutException => "Message: timeout"
  | NoSuchElementException => "Message: no such element"
  | WebDriverException => "Message: unknown error"
  | TypeError => "argument of type 'NoneType' is not iterable"
  | PermissionError => "[Errno 13] Permission denied"
  | OSError => "[Errno 5] Input/output error"
  | InvalidFileException => "File is not a zip file"
  end.

Inductive level := INFO | WARNING | ERROR.

(** A [td] of a grid row: its [title] attribute, its text, and whether it
    holds an [a] element. *)
Record cell := Cell {
  c_title : option string;
  c_text : string;
  c_link : bool
}.

(** A document link of the dialog: its text and its [href]; [None] is a link
    whose element can no longer be read (the call raises). *)
Definition doc_link := option (string * option string).

(** The detail dialog: for each field the text of the element the XPath
    finds, [None] when [find_element] raises; the document links, [None]
    when [find_elements] raises. *)
Record modal := Modal {
  m_email : option string;
  m_ad_date : option string;
  m_deadline : option string;
  m_message : option string;
  m_docs : option (list doc_link)
}.

(** A [tr] of the grid, with what the browser does when the program acts on
    it: the click on the title link, the wait for the dialog ([None]: the
    wait times out) and the Escape key. *)
Record row := Row {
  r_cells : list cell;
  r_click_ok : bool;
  r_modal : option modal;
  r_escape_ok : bool
}.

(** The pager's next button: its [class] attribute and whether the scripted
    click goes through. *)
Record next_button := NextButton {
  nb_class : option string;
  nb_click_ok : bool
}.

(** One page of the grid; [p_next = None]: no element has the button's id. *)
Record page := Page {
  p_rows : list row;
  p_next : option next_button
}.

(** The remote data set: for the id of each tab that can be clicked, the
    pages of its table, in pagination order. *)
Definition site := list (string * list page).

Fixpoint site_tab (tab_id : string) (s : site) : option (list page) :=
  match s with
  | [] => None
  | (t, ps) :: s' => if String.eqb tab_id t then Some ps else site_tab tab_id s'
  end.

(** What the program does to the browser, and what it logs, in order. *)
Inductive event :=
| Log (l : level) (msg : string)
| ClickTab (tab_id : string)
| WaitRows
| FindRows
| ClickTitle (bid : pyval)
| WaitModal
| SendEscape
| FindNext
| ClickNext.

(** The workbook, as [to_excel] makes it: one sheet, named [Sheet1], with
    the header row and the rows below it. *)
Record workbook := Workbook {
  wb_header : list string;
  wb_rows : list (list pyval)
}.

(** The file at [EXCEL_FILE]: missing, present but not a readable workbook,
    or a workbook. *)
Inductive file :=
| Absent
| Unreadable
| Book (wb : workbook).

(** The fate of one attempt to write the file. *)
Inductive io :=
| IoOk
| IoDenied
| IoFault.

(** The state a run acts on: the file, the fates of the coming writes (when
    the list is used up every write goes through), the set object
    [processed_bid_ids], and the trace so far. *)
Record world := World {
  w_file : file;
  w_io : list io;
  w_seen : gset string;
  w_trace : list event
}.

Definition LOG_FILE : string := "scraping_log.txt".
Definition EXCEL_FILE : string := "delaware_all_bids.xlsx".
Definition BASE_URL : string := "https://mmp.delaware.gov/Bids/".

(** ** Computations that may raise *)

Inductive outcome (A : Type) :=
| Ret (a : A)
| Raise (e : exn).
Arguments Ret {A} a.
Arguments Raise {A} e.

(** A computation over a state [W]: it returns or raises, and leaves a
    state. *)
Definition Comp (W A : Type) : Type := W -> outcome A * W.

Definition ret {W A} (a : A) : Comp W A := fun w => (Ret a, w).

Definition raise {W A} (e : exn) : Comp W A := fun w => (Raise e, w).

Definition bind {W A B} (c : Comp W A) (k : A -> Comp W B) : Comp W B :=
  fun w =>
    match c w with
    | (Ret a, w') => k a w'
    | (Raise e, w') => (Raise e, w')
    end.

(** [try: c except Exception as e: h e] *)
Definition catch {W A} (c : Comp W A) (h : exn -> Comp W A) : Comp W A :=
  fun w =>
    match c w with
    | (Ret a, w') => (Ret a, w')
    | (Raise e, w') => h e w'
    end.

(** [try: c except (E1, E2) as e: h e]: only the exceptions [handles]
    accepts are caught, the others pass. *)
Definition catch_if {W A} (handles : exn -> bool) (c : Comp W A) (h : exn -> Comp W A)
  : Comp W A :=
  fun w =>
    match c w with
    | (Ret a, w') => (Ret a, w')
    | (Raise e, w') => if handles e then h e w' else (Raise e, w')
    end.

(** [try: c finally: f] *)
Definition finally {W A} (c : Comp W A) (f : Comp W unit) : Comp W A :=
  fun w =>
    match c w with
    | (o, w') =>
        match f w' with
        | (Ret _, w'') => (o, w'')
        | (Raise e, w'') => (Raise e, w'')
        end
    end.

Notation "'let*' x ':=' c1 'in' c2" := (bind c1 (fun x => c2))
  (at level 10, x name, c1 at level 100, c2 at level 200).
Notation "c1 >> c2" := (bind c1 (fun _ => c2))
  (at level 100, c2 at level 200, right associativity).

(** The computations of scraper.py. *)
Definition M (A : Type) : Type := Comp world A.

Definition emit (e : event) : M unit :=
  fun w => (Ret tt, World (w_file w) (w_io w) (w_seen w) (w_trace w ++ [e])).

Definition log (l : level) (msg : string) : M unit := emit (Log l msg).

(** [os.path.exists(EXCEL_FILE)] *)
Definition path_exists : M bool :=
  fun w => (Ret (match w_file w with Absent => false | _ => true end), w).

(** One attempt to write the file: takes the next fate. *)
Definition write_file (f : file) : M unit :=
  fun w =>
    match w_io w with
    | IoDenied :: ios =>
        (Raise PermissionError, World (w_file w) ios (w_seen w) (w_trace w))
    | IoFault :: ios =>
        (Raise OSError, World (w_file w) ios (w_seen w) (w_trace w))
    | IoOk :: ios => (Ret tt, World f ios (w_seen w) (w_trace w))
    | [] => (Ret tt, World f [] (w_seen w) (w_trace w))
    end.

(** [load_workbook(EXCEL_FILE)] *)
Definition load_workbook : M workbook :=
  fun w =>
    match w_file w with
    | Book wb => (Ret wb, w)
    | Unreadable => (Raise InvalidFileException, w)
    | Absent => (Raise OSError, w)
    end.

(** [pd.read_excel(EXCEL_FILE)]: the first sheet as a data frame, its first
    row as column names. *)
Definition read_excel : M workbook := load_workbook.

(** [processed_bid_ids = ids]: the name is bound to a new set object. *)
Definition seen_bind (ids : gset string) : M unit :=
  fun w => (Ret tt, World (w_file w) (w_io w) ids (w_trace w)).

(** [processed_bid_ids.add(k)] *)
Definition seen_add (k : string) : M unit :=
  fun w => (Ret tt, World (w_file w) (w_io w) ({[k]} ∪ w_seen w) (w_trace w)).

(** [k in processed_bid_ids] *)
Definition seen_mem (k : string) : M bool :=
  fun w => (Ret (bool_decide (k ∈ w_seen w)), w).

(** ** scraper.py: the workbook *)

Fixpoint index_of (k : string) (l : list string) : option nat :=
  match l with
  | [] => None
  | x :: l' => if String.eqb k x then Some 0 else S <$> index_of k l'
  end.

(** [df[k]]: the cells below the first header cell that reads [k]; a row too
    short for the column gives an empty cell. *)
Definition column (k : string) (wb : workbook) : list pyval :=
  match index_of k (wb_header wb) with
  | Some i => (fun r => default PyNone (r !! i)) <$> wb_rows wb
  | None => []
  end.

Section Loading.

(** The text [astype(str)] gives for a cell of the data frame that
    [read_excel] builds, in terms of the value that was written to the
    cell.  pandas decides it, not this program, and it decides it for a
    column as a whole: [read_back] is what it makes of the cells of the
    files at hand. *)
Variable read_back : pyval -> string.

Definition load_processed_bid_ids : M (gset string) :=
  let* present := path_exists in
  if negb present then
    log INFO ("No existing Excel file found. " +:+ String "010" "Starting fresh.") >>
    ret ∅
  else
    catch
      (let* df_existing := read_excel in
       if bool_decide ("Bid ID" ∈ wb_header df_existing) then
         let processed_ids : gset string :=
           list_to_set (read_back <$> column "Bid ID" df_existing) in
         log INFO ("Loaded " +:+ pretty (size processed_ids) +:+
                   " previously scraped bid IDs.") >>
         ret processed_ids
       else
         log WARNING "Column 'Bid ID' not found in Excel. Starting with an empty set." >>
         ret ∅)
      (fun e =>
         log ERROR ("Error reading Excel file: " +:+ exn_str e) >>
         ret ∅).

End Loading.

(** The two writes of [append_to_excel].  The second one writes into the
    sheet named [Sheet1], below the last row of the active sheet, which in
    a workbook with that one sheet is the same sheet. *)
Definition to_excel_new (bid_data : dict) : M unit :=
  write_file (Book (Workbook (keys bid_data) [values bid_data])).

Definition to_excel_append (book : workbook) (bid_data : dict) : M unit :=
  write_file (Book (Workbook (wb_header book) (wb_rows book ++ [values bid_data]))).

Definition append_to_excel (bid_data : dict) : M unit :=
  let* present := path_exists in
  if negb present then
    to_excel_new bid_data >>
    log INFO "Created new Excel file with headers."
  else
    catch
      (let* book := load_workbook in
       to_excel_append book bid_data)
      (fun e =>
         match e with
         | PermissionError =>
             log ERROR ("Permission denied: Could not write to '" +:+ EXCEL_FILE +:+
                        "'. It may be open.")
         | _ => log ERROR ("Failed to save data to Excel: " +:+ exn_str e)
         end).

(** ** scraper.py: the dialog, a row, the pager *)

(** [get_text]: any failure gives ["N/A"]. *)
Definition get_text (found : option string) : string :=
  match found with
  | Some t => strip t
  | None => "N/A"
  end.

(** The loop over the document links: stops at the first link that raises,
    keeping what it has. *)
Fixpoint collect_documents (links : list doc_link) (documents : dict) : dict * bool :=
  match links with
  | [] => (documents, true)
  | Some (text, href) :: links' =>
      collect_documents links' (dict_set (strip text) (of_attr href) documents)
  | None :: _ => (documents, false)
  end.

Definition extract_modal_data (m : modal) : M dict :=
  let* documents :=
    match m_docs m with
    | None =>
        log WARNING ("Could not extract document links: " +:+ exn_str WebDriverException) >>
        ret []
    | Some links =>
        match collect_documents links [] with
        | (documents, true) => ret documents
        | (documents, false) =>
            log WARNING ("Could not extract document links: " +:+ exn_str WebDriverException) >>
            ret documents
        end
    end in
  ret (dict_lit [
    ("Contact Email", PyStr (get_text (m_email m)));
    ("Solicitation Ad Date", PyStr (get_text (m_ad_date m)));
    ("Deadline for Bid Responses", PyStr (get_text (m_deadline m)));
    ("Important Message", PyStr (get_text (m_message m)));
    ("Documents", PyStr (match documents with [] => "N/A" | _ => dict_str documents end))
  ]).

Definition empty_cell : cell := Cell None "" false.

(** [cells[i]], read only where [i < len(cells)] is known. *)
Definition cell_at (cells : list cell) (i : nat) : cell := nth i cells empty_cell.

Definition bid_summary_of (category_name : string) (cells : list cell) : dict :=
  dict_lit [
    ("Category", PyStr category_name);
    ("Bid ID", of_attr (c_title (cell_at cells 0)));
    ("Contract Number", PyStr (strip (c_text (cell_at cells 1))));
    ("Title", PyStr (strip (c_text (cell_at cells 2))));
    ("Open Date", PyStr (strip (c_text (cell_at cells 3))));
    ("Deadline", PyStr (strip (c_text (cell_at cells 4))));
    ("Agency", PyStr (strip (c_text (cell_at cells 5))));
    ("UNSPSC", PyStr (strip (c_text (cell_at cells 6))))
  ].

Definition process_bid_row (category_name : string) (r : row) : M unit :=
  let cells := r_cells r in
  if Nat.ltb (List.length cells) 7 then ret tt
  else
    let bid_id := of_attr (c_title (cell_at cells 0)) in
    let* known := seen_mem (py_str bid_id) in
    if known then
      log INFO ("Skipping already scraped Bid ID: " +:+ py_str bid_id)
    else
      let bid_summary := bid_summary_of category_name cells in
      (if c_link (cell_at cells 2) then ret tt else raise NoSuchElementException) >>
      (if r_click_ok r then emit (ClickTitle bid_id) else raise WebDriverException) >>
      emit WaitModal >>
      let* m :=
        match r_modal r with
        | Some m => ret m
        | None => raise TimeoutException
        end in
      let* modal_data := extract_modal_data m in
      (if r_escape_ok r then emit SendEscape else raise WebDriverException) >>
      let full_bid_data := dict_update bid_summary modal_data in
      append_to_excel full_bid_data >>
      seen_add (py_str bid_id) >>
      log INFO ("Successfully scraped and saved Bid ID: " +:+ py_str bid_id).

Definition navigate_to_next_page (p : page) : M bool :=
  catch
    (emit FindNext >>
     let* next_btn :=
       match p_next p with
       | Some b => ret b
       | None => raise NoSuchElementException
       end in
     let* cls :=
       match nb_class next_btn with
       | Some c => ret c
       | None => raise TypeError
       end in
     if contains "disabled" cls || contains "ui-jqgrid-disablePointerEvents" cls then
       ret false
     else
       (if nb_click_ok next_btn then emit ClickNext else raise WebDriverException) >>
       ret true)
    (fun e =>
       log ERROR ("Pagination failed or reached the end: " +:+ exn_str e) >>
       ret false).

(** ** scraper.py: the loops *)

(** The body of [for row in rows]: a fault of the row is logged and the
    loop goes on. *)
Definition row_step (category_name : string) (r : row) : M unit :=
  catch (process_bid_row category_name r)
    (fun e => log ERROR ("Error processing a bid row: " +:+ exn_str e)).

Fixpoint rows_loop (category_name : string) (rows : list row) : M unit :=
  match rows with
  | [] => ret tt
  | r :: rows' => row_step category_name r >> rows_loop category_name rows'
  end.

(** [while True] over the pages the grid shows one after the other: the
    first of [pages] is on display, a click on the next button brings up the
    following one.  The wait for a [tr] times out on a page without rows, and
    when the grid has nothing more to show. *)
Fixpoint scrape_bids_from_table (category_name : string) (pages : list page) : M unit :=
  match pages with
  | [] => emit WaitRows >> raise TimeoutException
  | p :: pages' =>
      emit WaitRows >>
      (match p_rows p with [] => raise TimeoutException | _ => ret tt end) >>
      emit FindRows >>
      rows_loop category_name (p_rows p) >>
      let* more := navigate_to_next_page p in
      if more then scrape_bids_from_table category_name pages'
      else log INFO "No more pages to scrape in this category."
  end.

Definition categories : list (string * string) :=
  [("Open", "btnOpen"); ("Recently Closed", "btnClosed"); ("Not Awarded", "btnNotAwarded")].

(** The body of [for category_name, tab_id in categories]. *)
Definition category_step (s : site) (c : string * string) : M unit :=
  let '(category_name, tab_id) := c in
  log INFO ("--- Processing category: " +:+ category_name +:+ " ---") >>
  catch
    (let* pages :=
       match site_tab tab_id s with
       | Some pages => emit (ClickTab tab_id) >> ret pages
       | None => raise TimeoutException
       end in
     scrape_bids_from_table category_name pages)
    (fun e =>
       log ERROR ("Could not process category '" +:+ category_name +:+ "': " +:+ exn_str e)).

Fixpoint categories_loop (s : site) (cs : list (string * string)) : M unit :=
  match cs with
  | [] => ret tt
  | c :: cs' => category_step s c >> categories_loop s cs'
  end.

Definition process_bid_categories (s : site) : M unit :=
  categories_loop s categories.

Definition navigate_to_bids_page (url : string) : M unit :=
  log INFO ("Navigated to " +:+ url).

Section Main.

Variable read_back : pyval -> string.

(** [main]: the set the run works with is the one just loaded; a fresh
    process starts with an empty trace. *)
Definition main (s : site) : M unit :=
  finally
    (let* processed_bid_ids := load_processed_bid_ids read_back in
     seen_bind processed_bid_ids >>
     navigate_to_bids_page BASE_URL >>
     process_bid_categories s)
    (log INFO "Scraping complete and browser closed.").

(** The world a process starts in, given the file on disk and the fates
    of its writes. *)
Definition start (f : file) (ios : list io) : world := World f ios ∅ [].

(** One whole run, as a function of the file it finds. *)
Definition run (s : site) (f : file) (ios : list io) : world :=
  (main s (start f ios)).2.

End Main.

(** *** [main] and the browser

    [main] above is the run on a browser that does what it is asked.  The
    calls [main] makes on the browser itself can raise as well: the calls
    before the [try] ([setup_logging], [initialize_browser],
    [setup_interrupt_handler]), [driver.get] in [navigate_to_bids_page], and
    [driver.quit] in the [finally] block.  No handler covers them. *)
Record browser := Browser {
  starts : bool;
  opens : bool;
  quits : bool
}.

Definition initialize_browser (b : browser) : M unit :=
  if starts b then ret tt else raise WebDriverException.

Definition driver_get (b : browser) (url : string) : M unit :=
  if opens b then ret tt else raise WebDriverException.

Definition driver_quit (b : browser) : M unit :=
  if quits b then ret tt else raise WebDriverException.

Definition navigate_to_bids_page_with (b : browser) (url : string) : M unit :=
  driver_get b url >>
  log INFO ("Navigated to " +:+ url).

Section MainWithBrowser.

Variable read_back : pyval -> string.

Definition main_with (b : browser) (s : site) : M unit :=
  initialize_browser b >>
  finally
    (let* processed_bid_ids := load_processed_bid_ids read_back in
     seen_bind processed_bid_ids >>
     navigate_to_bids_page_with b BASE_URL >>
     process_bid_categories s)
    (driver_quit b >>
     log INFO "Scraping complete and browser closed.").

End MainWithBrowser.

(** What pandas makes of a cell in a column of empty cells and of texts
    it does not take for numbers: an empty cell is read as NaN, whose [str]
    is ["nan"]; a text cell is read as its text. *)
Definition pandas_str (v : pyval) : string :=
  match v with
  | PyNone => "nan"
  | PyStr s => s
  end.

(** ** end.py: the second scraper *)

Module End.

(** A value of a record: text, or the list of [href]s of the documents. *)
Inductive value :=
| VStr (s : string)
| VList (hrefs : list (option string)).

Definition dict := list (string * value).

Fixpoint dict_set (k : string) (v : value) (d : dict) : dict :=
  match d with
  | [] => [(k, v)]
  | (k', v') :: d' =>
      if String.eqb k k' then (k, v) :: d' else (k', v') :: dict_set k v d'
  end.

Definition dict_update (a b : dict) : dict :=
  foldl (fun acc kv => dict_set kv.1 kv.2 acc) a b.

(** The pop-up: whether its header becomes visible before the wait times
    out, the text of each element looked up ([None]: no such element), and
    the [href]s of the document links. *)
Record modal := Modal {
  header_visible : bool;
  header : option string;
  solicitation : option string;
  deadline : option string;
  contact_name : option string;
  contact_email : option string;
  docs : list (option string)
}.

(** A [tr]: the text of its cells, whether a click on it goes through,
    the pop-up it opens, and for each [.modal-close] element on the page
    whether a click on it goes through. *)
Record row := Row {
  cols : list string;
  click_ok : bool;
  popup : modal;
  close_btn : list bool
}.

Inductive event :=
| Print (msg : string)
| ClickRow (contract : string)
| ClickClose.

(** The list [all_bids_list] and what the run printed and did. *)
Record world := World {
  all_bids_list : list dict;
  trace : list event
}.

Definition M (A : Type) : Type := Comp world A.

Definition emit (e : event) : M unit :=
  fun w => (Ret tt, World (all_bids_list w) (trace w ++ [e])).

Definition print (msg : string) : M unit := emit (Print msg).

Definition append_bid (d : dict) : M unit :=
  fun w => (Ret tt, World (all_bids_list w ++ [d]) (trace w)).

(** The lookups of [extract_bid_details], one after the other: the first
    missing element ends them, and what was read so far is kept. *)
Fixpoint read_fields (fields : list (string * option string)) (details : dict)
  : dict * bool :=
  match fields with
  | [] => (details, true)
  | (k, Some t) :: fields' => read_fields fields' (dict_set k (VStr t) details)
  | (_, None) :: _ => (details, false)
  end.

Definition extract_bid_details (m : modal) : M dict :=
  if negb (header_visible m) then
    print ("Could not extract all details from modal: " +:+ exn_str TimeoutException) >>
    ret []
  else
    match read_fields [("header", header m);
                       ("solicitation_ad_date", solicitation m);
                       ("deadline", deadline m);
                       ("contact_name", contact_name m);
                       ("contact_email", contact_email m)] [] with
    | (details, true) => ret (dict_set "document_links" (VList (docs m)) details)
    | (details, false) =>
        print ("Could not extract all details from modal: " +:+
               exn_str NoSuchElementException) >>
        ret details
    end.

Definition col_at (cs : list string) (i : nat) : string := nth i cs "".

(** [if close_btn: close_btn[0].click()] *)
Definition click_close (r : row) : M unit :=
  match close_btn r with
  | [] => ret tt
  | true :: _ => emit ClickClose
  | false :: _ => raise WebDriverException
  end.

(** The [try] block of the row loop. *)
Definition process_row (status : string) (r : row) : M unit :=
  let cs := cols r in
  if Nat.ltb (List.length cs) 6 then ret tt
  else
    let bid_data : dict := [
      ("Contract Number", VStr (col_at cs 0));
      ("Contract Title", VStr (col_at cs 1));
      ("Open Date", VStr (col_at cs 2));
      ("Deadline Date", VStr (col_at cs 3));
      ("Agency Code", VStr (col_at cs 4));
      ("UNSPSC", VStr (col_at cs 5));
      ("Status", VStr status)
    ] in
    (if click_ok r then emit (ClickRow (col_at cs 0)) else raise WebDriverException) >>
    let* detail_data := extract_bid_details (popup r) in
    let bid_data := dict_update bid_data detail_data in
    click_close r >>
    append_bid bid_data.

(** The body of [for row in rows], with its handler: the fault is
    printed, then a close of a pop-up left open is tried. *)
Definition row_step (status : string) (r : row) : M unit :=
  catch (process_row status r)
    (fun e =>
       print ("Error processing a row: " +:+ exn_str e) >>
       catch (click_close r)
         (fun close_e => print ("Could not close stray modal: " +:+ exn_str close_e))).

Fixpoint rows_loop (status : string) (rows : list row) : M unit :=
  match rows with
  | [] => ret tt
  | r :: rows' => row_step status r >> rows_loop status rows'
  end.

(** *** The tabs, the pages and the export *)

Definition BASE_URL : string := "https://bids.delaware.gov".
Definition OUTPUT_FILENAME : string := "Delaware_Bids_Export.xlsx".

Definition is_timeout (e : exn) : bool :=
  match e with
  | TimeoutException => true
  | _ => false
  end.

Definition is_timeout_or_missing (e : exn) : bool :=
  match e with
  | TimeoutException | NoSuchElementException => true
  | _ => false
  end.

(** One page of the table: whether the table body shows up before the wait
    times out, its rows, and the link to the next page ([None]: no link
    becomes clickable within the wait; otherwise whether the click on it
    goes through). *)
Record page := Page {
  table_present : bool;
  page_rows : list row;
  next_link : option bool
}.

(** A status tab that can be found: whether the click on it goes through,
    and the pages of its table. *)
Record tab := Tab {
  tab_click_ok : bool;
  tab_pages : list page
}.

(** The web site: the tab each status finds; a status without a tab makes
    the wait for it time out. *)
Definition site := list (string * tab).

Fixpoint find_tab (status : string) (s : site) : option tab :=
  match s with
  | [] => None
  | (t, x) :: s' => if String.eqb status t then Some x else find_tab status s'
  end.

(** [while True] over the pages shown one after the other; with nothing
    left to show the wait for the table times out. *)
Fixpoint pages_loop (status : string) (pages : list page) : M unit :=
  match pages with
  | [] => print "Bid table not found on the page."
  | p :: pages' =>
      let* found :=
        catch_if is_timeout
          ((if table_present p then ret tt else raise TimeoutException) >>
           print ("Found " +:+ pretty (List.length (page_rows p)) +:+
                  " bids on the current page.") >>
           ret true)
          (fun _ => print "Bid table not found on the page." >> ret false) in
      if negb found then ret tt
      else
        rows_loop status (page_rows p) >>
        let* more :=
          catch_if is_timeout_or_missing
            (match next_link p with
             | None => raise TimeoutException
             | Some ok =>
                 (if ok then ret tt else raise WebDriverException) >>
                 print "Navigating to the next page..." >>
                 ret true
             end)
            (fun _ => print "No more pages found for this status." >> ret false) in
        if more then pages_loop status pages' else ret tt
  end.

Definition process_bids_for_status (s : site) (status : string) : M unit :=
  print (String "010" "--- Processing bids for status: " +:+ status +:+ " ---") >>
  let* clicked :=
    catch_if is_timeout
      (match find_tab status s with
       | None => raise TimeoutException
       | Some t =>
           (if tab_click_ok t then ret tt else raise WebDriverException) >>
           ret (Some t)
       end)
      (fun _ =>
         print ("Could not find or click the '" +:+ status +:+ "' tab.") >>
         ret None) in
  match clicked with
  | None => ret tt
  | Some t => pages_loop status (tab_pages t)
  end.

(** [save_to_excel(all_bids_data, OUTPUT_FILENAME)]; [export_ok] says
    whether writing the file goes through. *)
Definition save_to_excel (export_ok : bool) : M unit :=
  fun w =>
    match all_bids_list w with
    | [] => print "No data was collected to export." w
    | data =>
        (print (String "010" "Exporting " +:+ pretty (List.length data) +:+ " bids to " +:+
                OUTPUT_FILENAME +:+ "...") >>
         (if export_ok then ret tt else raise OSError) >>
         print "Data export complete.") w
    end.

Definition statuses_to_process : list string := ["Open"; "Recently Closed"; "Awarded"].

(** [for status in statuses_to_process]: nothing is caught here. *)
Fixpoint statuses_loop (s : site) (statuses : list string) : M unit :=
  match statuses with
  | [] => ret tt
  | status :: statuses' => process_bids_for_status s status >> statuses_loop s statuses'
  end.

(** What the machine does around the scraping: whether Chrome starts,
    whether the site opens, whether the export file can be written, and
    whether the browser quits. *)
Record machine := Machine {
  chrome_ok : bool;
  get_ok : bool;
  export_ok : bool;
  quit_ok : bool
}.

Definition initialize_driver (mc : machine) : M unit :=
  print "Initializing Chrome WebDriver..." >>
  (if chrome_ok mc then ret tt else raise WebDriverException).

Definition navigate_to_website (mc : machine) (url : string) : M unit :=
  print ("Navigating to " +:+ url +:+ "...") >>
  (if get_ok mc then ret tt else raise WebDriverException).

(** [main]: [driver] is [None] until [initialize_driver] has returned, so
    [if driver:] in the [finally] block holds exactly when Chrome started;
    an exception of [driver.quit()] there leaves [main]. *)
Definition main (s : site) (mc : machine) : M unit :=
  finally
    (catch
       (initialize_driver mc >>
        navigate_to_website mc BASE_URL >>
        statuses_loop s statuses_to_process >>
        save_to_excel (export_ok mc))
       (fun e =>
          print (String "010" "An unexpected error occurred in the main process: " +:+
                 exn_str e)))
    (if chrome_ok mc then
       print "Closing WebDriver." >>
       (if quit_ok mc then ret tt else raise WebDriverException)
     else ret tt).

(** A process starts with an empty list and nothing printed. *)
Definition start : world := World [] [].

End End.

(** * Notions the statements are written with *)

#[global] Instance level_eq_dec : EqDecision level.
Proof. solve_decision. Defined.

#[global] Instance event_eq_dec : EqDecision event.
Proof. solve_decision. Defined.

(** The identifier of a row, as [process_bid_row] reads it, and the key it
    is deduplicated under. *)
Definition bid_id_of (r : row) : pyval := of_attr (c_title (cell_at (r_cells r) 0)).
Definition dedup_key (r : row) : string := py_str (bid_id_of r).

(** The columns of a record that [process_bid_row] stores. *)
Definition summary_keys : list string :=
  ["Category"; "Bid ID"; "Contract Number"; "Title"; "Open Date"; "Deadline";
   "Agency"; "UNSPSC"].
Definition detail_keys : list string :=
  ["Contact Email"; "Solicitation Ad Date"; "Deadline for Bid Responses";
   "Important Message"; "Documents"].

(** A row with three cells only. *)
Definition malformed_row : row :=
  Row [Cell (Some "A1") "A1" false; Cell None "C-1" false; Cell None "Title" true]
      true None true.

(** A row with all seven cells, a title link and a dialog that opens. *)
Definition sample_modal : modal :=
  Modal (Some "buyer@delaware.gov") (Some "01/02/2025") (Some "02/03/2025") None
        (Some [Some ("Bid Document", Some "https://mmp.delaware.gov/doc/1")]).

Definition sample_row (title : option string) : row :=
  Row [Cell title "" false; Cell None "GSS-1" false; Cell None " Paving " true;
       Cell None "01/02/2025" false; Cell None "02/03/2025" false;
       Cell None "DOT" false; Cell None "72141000" false]
      true (Some sample_modal) true.

(** Whether the next write goes through. *)
Definition io_ok (ios : list io) : bool :=
  match ios with
  | [] | IoOk :: _ => true
  | _ => false
  end.

(** The identifier cell of a stored row, given the header. *)
Definition stored_id (header : list string) (stored : list pyval) : pyval :=
  match index_of "Bid ID" header with
  | Some i => default PyNone (stored !! i)
  | None => PyNone
  end.

(** The record [extract_modal_data] returns. *)
Definition modal_record (m : modal) : dict :=
  let documents :=
    match m_docs m with
    | Some links => (collect_documents links []).1
    | None => []
    end in
  dict_lit [
    ("Contact Email", PyStr (get_text (m_email m)));
    ("Solicitation Ad Date", PyStr (get_text (m_ad_date m)));
    ("Deadline for Bid Responses", PyStr (get_text (m_deadline m)));
    ("Important Message", PyStr (get_text (m_message m)));
    ("Documents", PyStr (match documents with [] => "N/A" | _ => dict_str documents end))
  ].

(** The warning [extract_modal_data] logs when the document links cannot
    all be read. *)
Definition modal_logs (m : modal) : list event :=
  let complete :=
    match m_docs m with
    | Some links => (collect_documents links []).2
    | None => false
    end in
  if complete then []
  else [Log WARNING ("Could not extract document links: " +:+ exn_str WebDriverException)].

(** The record [process_bid_row] stores for a row whose dialog is [m]. *)
Definition full_bid_data (category_name : string) (r : row) (m : modal) : dict :=
  dict_update (bid_summary_of category_name (r_cells r)) (modal_record m).

(** The next button is missing, or its class marks it as disabled. *)
Definition next_unavailable (p : page) : bool :=
  match p_next p with
  | None => true
  | Some b =>
      match nb_class b with
      | Some cls => contains "disabled" cls || contains "ui-jqgrid-disablePointerEvents" cls
      | None => false
      end
  end.

(** The next button is there, enabled, and the click on it goes through. *)
Definition next_clicked (p : page) : bool :=
  match p_next p with
  | Some (NextButton (Some cls) true) =>
      negb (contains "disabled" cls || contains "ui-jqgrid-disablePointerEvents" cls)
  | _ => false
  end.

(** Everything between the duplicate check and the write goes through: the
    title cell holds a link, the click on it and the Escape key work, and
    the dialog appears. *)
Definition opens_detail (r : row) : bool :=
  c_link (cell_at (r_cells r) 2) && r_click_ok r
  && match r_modal r with Some _ => true | None => false end
  && r_escape_ok r.

(** What writing the record [d] of a row with key [key] does to the file,
    the fates of the writes and the set: the effect of [append_to_excel]
    followed, when it returns, by [processed_bid_ids.add]. *)
Definition store_effect (d : dict) (key : string) (s : file * list io * gset string)
  : file * list io * gset string :=
  let '(f, ios, seen) := s in
  match f with
  | Absent =>
      if io_ok ios then (Book (Workbook (keys d) [values d]), tail ios, {[key]} ∪ seen)
      else (Absent, tail ios, seen)
  | Unreadable => (Unreadable, ios, {[key]} ∪ seen)
  | Book wb =>
      if io_ok ios then
        (Book (Workbook (wb_header wb) (wb_rows wb ++ [values d])), tail ios, {[key]} ∪ seen)
      else (Book wb, tail ios, {[key]} ∪ seen)
  end.

Definition row_effect (category_name : string) (r : row) (s : file * list io * gset string)
  : file * list io * gset string :=
  if Nat.ltb (List.length (r_cells r)) 7 then s
  else if bool_decide (dedup_key r ∈ s.2) then s
  else if opens_detail r then
    match r_modal r with
    | Some m => store_effect (full_bid_data category_name r m) (dedup_key r) s
    | None => s
    end
  else s.

Definition disk_and_set (w : world) : file * list io * gset string :=
  (w_file w, w_io w, w_seen w).

(** The rows of a page, one after the other. *)
Definition rows_effect (category_name : string) (rows : list row)
    (s : file * list io * gset string) : file * list io * gset string :=
  foldl (fun s r => row_effect category_name r s) s rows.

(** A page whose next button is disabled, and the page after it. *)
Definition last_page : page :=
  Page [sample_row (Some "A3")] (Some (NextButton (Some "ui-corner-all ui-state-disabled") true)).

Definition unreached_page : page :=
  Page [sample_row (Some "A4")] None.

(** A row whose dialog never appears. *)
Definition stuck_row (title : option string) : row :=
  Row (r_cells (sample_row title)) true None true.

(** A workbook with the header the scraper writes and the given rows. *)
Definition own_book (stored : list (list pyval)) : file :=
  Book (Workbook (summary_keys ++ detail_keys) stored).

(** A row of end.py on which the click fails while a pop-up with a close
    button is on the page. *)
Definition blocked_row : End.row :=
  End.Row ["GSS-1"; "Paving"; "01/02/2025"; "02/03/2025"; "DOT"; "72141000"] false
          (End.Modal true None None None None None []) [true].

(** The rows the page loop steps through, in order: the rows of a page, and
    those of the following pages as long as the next button was clicked. *)
Fixpoint visited_rows (pages : list page) : list row :=
  match pages with
  | [] => []
  | p :: pages' =>
      match p_rows p with
      | [] => []
      | rows => rows ++ (if next_clicked p then visited_rows pages' else [])
      end
  end.

(** The rows a run steps through, each with the category it is read under. *)
Definition category_visits (s : site) (c : string * string) : list (string * row) :=
  match site_tab c.2 s with
  | Some pages => pair c.1 <$> visited_rows pages
  | None => []
  end.

Definition site_visits (s : site) : list (string * row) :=
  categories ≫= category_visits s.

Definition visits_effect (visits : list (string * row))
    (s : file * list io * gset string) : file * list io * gset string :=
  foldl (fun s v => row_effect v.1 v.2 s) s visits.

(** The set [load_processed_bid_ids] returns for a file. *)
Definition loaded_ids (read_back : pyval -> string) (f : file) : gset string :=
  match f with
  | Book wb =>
      if bool_decide ("Bid ID" ∈ wb_header wb) then
        list_to_set (read_back <$> column "Bid ID" wb)
      else ∅
  | _ => ∅
  end.

(** The identifiers the file holds: the cells of its Bid ID column, each as
    the text [str] gives for the value that was written ([process_bid_row]
    deduplicates under that text); none for a missing file, for a file that
    is no workbook and for a workbook without the column. *)
Definition stored_identifiers (f : file) : gset string :=
  match f with
  | Book wb => list_to_set (py_str <$> column "Bid ID" wb)
  | _ => ∅
  end.

(** Every cell of the Bid ID column of the file is read back as the text
    of the value that was written to it. *)
Definition reads_back_as_stored (read_back : pyval -> string) (f : file) : Prop :=
  match f with
  | Book wb => forall c, c ∈ column "Bid ID" wb -> read_back c = py_str c
  | _ => True
  end.

(** A row that gets as far as the write when its key is new. *)
Definition attempted (r : row) : bool :=
  negb (Nat.ltb (List.length (r_cells r)) 7) && opens_detail r.

(** A file the scraper can extend and find its identifiers in again: none
    yet, or a workbook whose second column is headed Bid ID, as in the
    workbooks the scraper creates. *)
Definition own_store (f : file) : Prop :=
  match f with
  | Absent => True
  | Unreadable => False
  | Book wb => index_of "Bid ID" (wb_header wb) = Some 1
  end.

(** The number of records in the file. *)
Definition record_count (f : file) : nat :=
  match f with
  | Book wb => List.length (wb_rows wb)
  | _ => 0
  end.

(** A data set with one tab, one page and the given rows. *)
Definition one_page_site (rows : list row) : site :=
  [("btnOpen", [Page rows None])].

(** Every coming write goes through. *)
Definition all_ok (ios : list io) : Prop := Forall (fun o => o = IoOk) ios.

(** The state of a run in which no write has failed: the file is one the
    scraper can extend, and every key in the set is an identifier that the
    file gives back. *)
Definition settled (read_back : pyval -> string) (s : file * list io * gset string) : Prop :=
  all_ok s.1.2 /\ own_store s.1.1 /\ s.2 ⊆ loaded_ids read_back s.1.1.

(** A small data set: the tab Open with two pages, three rows in all. *)
Definition two_page_site : site :=
  [("btnOpen",
    [Page [sample_row (Some "A1"); sample_row (Some "A2")]
          (Some (NextButton (Some "ui-corner-all") true));
     Page [sample_row (Some "A3")]
          (Some (NextButton (Some "ui-corner-all ui-state-disabled") true))])].

(** A workbook someone else made: it has no Bid ID column. *)
Definition foreign_book : file := Book (Workbook ["Contract Number"; "Title"] []).

(** ** Notions for the further properties *)

(** The rows below the header of the file. *)
Definition stored_rows (f : file) : list (list pyval) :=
  match f with
  | Book wb => wb_rows wb
  | _ => []
  end.

(** The cells [process_bid_row] writes for a row read under a category. *)
Definition stored_record (v : string * row) : list pyval :=
  match r_modal v.2 with
  | Some m => values (full_bid_data v.1 v.2 m)
  | None => []
  end.

(** The file with some more records below its last row: a missing file is
    created with the scraper's header by the first of them, a workbook keeps
    its header and its rows, a file that is no workbook takes none. *)
Definition extend (f : file) (added : list (list pyval)) : file :=
  match f with
  | Absent =>
      match added with
      | [] => Absent
      | _ => Book (Workbook (summary_keys ++ detail_keys) added)
      end
  | Unreadable => Unreadable
  | Book wb => Book (Workbook (wb_header wb) (wb_rows wb ++ added))
  end.

(** The [href] of the last link whose text, stripped, is [name]. *)
Fixpoint last_href (name : string) (links : list (string * option string)) : option pyval :=
  match links with
  | [] => None
  | (text, href) :: links' =>
      match last_href name links' with
      | Some v => Some v
      | None => if String.eqb name (strip text) then Some (of_attr href) else None
      end
  end.

(** A dialog none of whose elements can be found. *)
Definition blank_modal : modal := Modal None None None None None.

(** The record [d] puts its identifier where the file has its Bid ID
    column: a missing file takes its header from the record, a workbook has
    the column at the place the record has the key. *)
Definition aligned (f : file) (d : dict) : Prop :=
  match f with
  | Absent => "Bid ID" ∈ keys d
  | Unreadable => False
  | Book wb =>
      exists i, index_of "Bid ID" (wb_header wb) = Some i
                /\ index_of "Bid ID" (keys d) = Some i
  end.

(** The first page a tab shows has no rows, or there is no such tab. *)
Definition without_table (s : site) (tab_id : string) : bool :=
  match site_tab tab_id s with
  | None => true
  | Some [] => true
  | Some (p :: _) => match p_rows p with [] => true | _ => false end
  end.

(** The key under which a stored row is deduplicated within a run: the text
    of its second cell, which is where [process_bid_row] puts the Bid ID. *)
Definition row_key (stored : list pyval) : string :=
  py_str (default PyNone (stored !! 1)).

(** ** Notions for end.py *)

(** The keys [extract_bid_details] fills, in the order it fills them. *)
Definition end_detail_keys : list string :=
  ["header"; "solicitation_ad_date"; "deadline"; "contact_name"; "contact_email";
   "document_links"].

(** The fields of the pop-up in the order they are looked up. *)
Definition end_fields (m : End.modal) : list (string * option string) :=
  [("header", End.header m);
   ("solicitation_ad_date", End.solicitation m);
   ("deadline", End.deadline m);
   ("contact_name", End.contact_name m);
   ("contact_email", End.contact_email m)].

(** The pop-up shows up and every field is found. *)
Definition end_complete (m : End.modal) : bool :=
  End.header_visible m && forallb (fun f => bool_decide (is_Some f.2)) (end_fields m).

(** The dictionary [extract_bid_details] returns. *)
Definition end_details (m : End.modal) : End.dict :=
  if End.header_visible m then
    match End.read_fields (end_fields m) [] with
    | (details, true) => End.dict_set "document_links" (End.VList (End.docs m)) details
    | (details, false) => details
    end
  else [].

(** The columns of the table, as [process_bids_for_status] reads them. *)
Definition end_table_fields (status : string) (r : End.row) : End.dict :=
  [("Contract Number", End.VStr (End.col_at (End.cols r) 0));
   ("Contract Title", End.VStr (End.col_at (End.cols r) 1));
   ("Open Date", End.VStr (End.col_at (End.cols r) 2));
   ("Deadline Date", End.VStr (End.col_at (End.cols r) 3));
   ("Agency Code", End.VStr (End.col_at (End.cols r) 4));
   ("UNSPSC", End.VStr (End.col_at (End.cols r) 5));
   ("Status", End.VStr status)].

(** The row ends up in [all_bids_list]: it has its six cells, the click on
    it goes through, and so does the click on the close button if there is
    one. *)
Definition end_recorded (r : End.row) : bool :=
  negb (Nat.ltb (List.length (End.cols r)) 6)
  && End.click_ok r
  && match End.close_btn r with [] => true | ok :: _ => ok end.

(** A row of end.py with a pop-up that lacks the contact name. *)
Definition end_row (contract : string) : End.row :=
  End.Row [contract; "Paving"; "01/02/2025"; "02/03/2025"; "DOT"; "72141000"] true
          (End.Modal true (Some "Paving") (Some "01/02/2025") (Some "02/03/2025") None
                     (Some "buyer@delaware.gov") [Some "https://bids.delaware.gov/doc/1"])
          [true].

(** A web site whose Open tab has one row and whose Recently Closed tab
    cannot be clicked. *)
Definition end_site : End.site :=
  [("Open", End.Tab true [End.Page true [end_row "GSS-1"] None]);
   ("Recently Closed", End.Tab false [])].

(** The record of a row of end.py. *)
Definition end_record (status : string) (r : End.row) : End.dict :=
  end_table_fields status r ++ end_details (End.popup r).

(** The rows the page loop of end.py steps through. *)
Fixpoint end_visited_rows (pages : list End.page) : list End.row :=
  match pages with
  | [] => []
  | p :: pages' =>
      if End.table_present p then
        End.page_rows p ++
        match End.next_link p with
        | Some true => end_visited_rows pages'
        | _ => []
        end
      else []
  end.

(** The rows stepped through for a status. *)
Definition end_status_rows (s : End.site) (status : string) : list End.row :=
  match End.find_tab status s with
  | Some t => if End.tab_click_ok t then end_visited_rows (End.tab_pages t) else []
  | None => []
  end.

(** The line [save_to_excel] prints before it writes the file. *)
Definition end_is_export (e : End.event) : bool :=
  match e with
  | End.Print msg => is_prefix (String "010" "Exporting ") msg
  | _ => false
  end.

(** * Properties *)

(** Decides a closed decidable statement by evaluation. *)
Ltac by_compute := apply (bool_decide_unpack _); vm_compute; exact I.

(** ** Dictionaries *)

Lemma dict_get_set_eq k v d : dict_get k (dict_set k v d) = Some v.
Proof.
  induction d as [|[k' v'] d IH]; cbn.
  - by rewrite String.eqb_refl.
  - destruct (String.eqb k k') eqn:E; cbn; rewrite ?String.eqb_refl, ?E; done.
Qed.

Lemma dict_get_set_ne k k' v d : k ≠ k' -> dict_get k (dict_set k' v d) = dict_get k d.
Proof.
  intros Hne. induction d as [|[k2 v2] d IH]; cbn.
  - destruct (String.eqb_spec k k'); done.
  - destruct (String.eqb_spec k' k2) as [->|Hk]; cbn.
    + destruct (String.eqb_spec k k2); done.
    + destruct (String.eqb_spec k k2); done.
Qed.

Lemma keys_dict_set_in k v d : k ∈ keys d -> keys (dict_set k v d) = keys d.
Proof.
  unfold keys. induction d as [|[k' v'] d IH]; cbn.
  - by intros ?%elem_of_nil.
  - intros Hin. destruct (String.eqb_spec k k') as [->|Hne]; cbn; [done|].
    f_equal. apply IH. apply elem_of_cons in Hin as [?|?]; done.
Qed.

Lemma keys_dict_set_fresh k v d : k ∉ keys d -> keys (dict_set k v d) = keys d ++ [k].
Proof.
  unfold keys. induction d as [|[k' v'] d IH]; cbn; [done|].
  intros Hnin. apply not_elem_of_cons in Hnin as [Hne Hnin].
  destruct (String.eqb_spec k k'); [done|]. cbn. f_equal. by apply IH.
Qed.

Lemma dict_get_None k d : dict_get k d = None <-> k ∉ keys d.
Proof.
  unfold keys. induction d as [|[k' v'] d IH]; cbn.
  - split; [intros _; apply not_elem_of_nil | done].
  - destruct (String.eqb_spec k k') as [->|Hne].
    + split; [done|]. intros []. left.
    + rewrite IH, not_elem_of_cons. split; [intros ?; split; done | intros [_ ?]; done].
Qed.

(** Merging a dictionary whose keys are new and distinct appends those keys,
    in order, and keeps every value of the left operand. *)
Lemma dict_update_disjoint (a b : dict) :
  NoDup (keys b) ->
  (forall k, k ∈ keys a -> k ∉ keys b) ->
  keys (dict_update a b) = keys a ++ keys b
  /\ (forall k, k ∈ keys a -> dict_get k (dict_update a b) = dict_get k a)
  /\ (forall k, k ∈ keys b -> dict_get k (dict_update a b) = dict_get k b).
Proof.
  unfold dict_update. revert a.
  induction b as [|[k v] b IH]; intros a Hnd Hdis; cbn.
  - rewrite app_nil_r. split_and!; [done|done|]. by intros k ?%elem_of_nil.
  - cbn in Hnd. apply NoDup_cons in Hnd as [Hk Hnd].
    assert (Hka : k ∉ keys a).
    { intros Hin. apply (Hdis k Hin). left. }
    destruct (IH (dict_set k v a) Hnd) as (IH1 & IH2 & IH3).
    { intros k' Hin. rewrite keys_dict_set_fresh in Hin; [|done].
      apply elem_of_app in Hin as [Hin|Hin%list_elem_of_singleton].
      - specialize (Hdis k' Hin). cbn in Hdis.
        by apply not_elem_of_cons in Hdis as [_ ?].
      - by subst. }
    split_and!.
    + rewrite IH1, keys_dict_set_fresh by done. by rewrite <- app_assoc.
    + intros k' Hin. rewrite IH2.
      * apply dict_get_set_ne. intros ->. done.
      * rewrite keys_dict_set_fresh; [|done]. apply elem_of_app. by left.
    + intros k' Hin. cbn in Hin. apply elem_of_cons in Hin as [->|Hin].
      * rewrite String.eqb_refl. rewrite IH2.
        -- apply dict_get_set_eq.
        -- rewrite keys_dict_set_fresh; [|done]. apply elem_of_app. right. left.
      * destruct (String.eqb_spec k' k) as [->|Hne]; [done|]. by apply IH3.
Qed.

Lemma keys_bid_summary_of category_name cells :
  keys (bid_summary_of category_name cells) = summary_keys.
Proof. reflexivity. Qed.

(** ** The dialog and the pager, as functions of the page *)

(** [extract_modal_data] never raises and touches only the log. *)
Lemma extract_modal_data_spec (m : modal) (w : world) :
  extract_modal_data m w
  = (Ret (modal_record m),
     World (w_file w) (w_io w) (w_seen w) (w_trace w ++ modal_logs m)).
Proof.
  destruct w as [f ios seen tr].
  unfold extract_modal_data, modal_record, modal_logs. destruct (m_docs m) as [links|].
  - destruct (collect_documents links []) as [documents [|]] eqn:E.
    + cbn. rewrite app_nil_r. reflexivity.
    + reflexivity.
  - reflexivity.
Qed.

Lemma modal_logs_warnings (m : modal) :
  Forall (fun e => exists msg, e = Log WARNING msg) (modal_logs m).
Proof.
  unfold modal_logs.
  destruct (match m_docs m with Some links => _ | None => _ end);
    repeat constructor. by eexists.
Qed.

Lemma keys_full_bid_data category_name r m :
  keys (full_bid_data category_name r m) = summary_keys ++ detail_keys.
Proof. reflexivity. Qed.

Lemma stored_id_full_bid_data category_name r m :
  stored_id (summary_keys ++ detail_keys) (values (full_bid_data category_name r m))
  = bid_id_of r.
Proof. reflexivity. Qed.

(** [navigate_to_next_page] never raises; it touches only the trace, and
    clicks exactly when it returns [True]. *)
Lemma navigate_to_next_page_spec (p : page) (w : world) :
  exists evs,
    navigate_to_next_page p w
    = (Ret (next_clicked p),
       World (w_file w) (w_io w) (w_seen w) (w_trace w ++ FindNext :: evs))
    /\ (next_clicked p = true -> evs = [ClickNext])
    /\ (next_clicked p = false ->
        Forall (fun e => exists msg, e = Log ERROR msg) evs)
    /\ (next_unavailable p = true -> p_next p <> None -> evs = []).
Proof.
  destruct w as [f ios seen tr]. unfold navigate_to_next_page, next_clicked, next_unavailable.
  unfold catch, bind, log, emit, raise, ret.
  destruct (p_next p) as [[[cls|] [|]]|]; cbn.
  1,2: destruct (contains "disabled" cls || contains "ui-jqgrid-disablePointerEvents" cls);
         cbn.
  all: eexists; (split; [rewrite <- ?app_assoc; reflexivity|]).
  all: split_and!; try done; intros; repeat constructor; by eexists.
Qed.

(** ** The merged record *)

(** C9.  Whatever the row's cells and the dialog hold, the summary has the
    eight summary columns (among them Category and Bid ID), the dialog's
    record has the five detail columns, no column is in both, and the merged
    record [{**bid_summary, **modal_data}] has exactly the summary columns
    followed by the detail columns, each once, every one with the value it
    had in the dictionary it came from: the merge overwrites nothing. *)
Theorem merged_record_keys_are_disjoint_union
    (category_name : string) (cells : list cell) (m : modal) (w : world) :
  let bid_summary := bid_summary_of category_name cells in
  exists modal_data w',
    extract_modal_data m w = (Ret modal_data, w')
    /\ keys bid_summary = summary_keys
    /\ keys modal_data = detail_keys
    /\ "Category" ∈ keys bid_summary
    /\ "Bid ID" ∈ keys bid_summary
    /\ (forall k, k ∈ keys bid_summary -> k ∉ keys modal_data)
    /\ keys (dict_update bid_summary modal_data) = keys bid_summary ++ keys modal_data
    /\ NoDup (keys (dict_update bid_summary modal_data))
    /\ (forall k, k ∈ keys bid_summary ->
          dict_get k (dict_update bid_summary modal_data) = dict_get k bid_summary)
    /\ (forall k, k ∈ keys modal_data ->
          dict_get k (dict_update bid_summary modal_data) = dict_get k modal_data).
Proof.
  intros bid_summary.
  eexists (modal_record m), _. split; [apply extract_modal_data_spec|].
  set (modal_data := modal_record m).
  assert (Hkeys : keys modal_data = detail_keys) by reflexivity.
  assert (Hs : keys bid_summary = summary_keys) by reflexivity.
  assert (Hdis : forall k, k ∈ keys bid_summary -> k ∉ keys modal_data).
  { intros k. rewrite Hs, Hkeys. revert k. apply Forall_forall.
    by_compute. }
  assert (Hnd : NoDup (keys modal_data)).
  { rewrite Hkeys. unfold detail_keys. by_compute. }
  destruct (dict_update_disjoint bid_summary modal_data Hnd Hdis) as (Hk & Hl & Hr).
  split_and!; try done.
  - rewrite Hs. by_compute.
  - rewrite Hs. by_compute.
  - rewrite Hk, Hs, Hkeys. by_compute.
Qed.

(** ** Rows that are skipped *)

(** C5.  A row of scraper.py with fewer than seven cells, and a row of
    end.py with fewer than six, leaves everything as it was: the row step
    returns, and the file, the fates of the writes, the set of seen
    identifiers and the trace (no click, no log line, no error) are
    unchanged; end.py's list of records and its output are unchanged too. *)
Theorem malformed_row_is_skipped_silently
    (category_name : string) (r : row) (w : world)
    (status : string) (r' : End.row) (w' : End.world) :
  List.length (r_cells r) < 7 ->
  List.length (End.cols r') < 6 ->
  process_bid_row category_name r w = (Ret tt, w)
  /\ row_step category_name r w = (Ret tt, w)
  /\ End.row_step status r' w' = (Ret tt, w').
Proof.
  intros Hlen Hlen'.
  apply Nat.ltb_lt in Hlen. apply Nat.ltb_lt in Hlen'.
  unfold row_step, End.row_step, catch, process_bid_row, End.process_row.
  rewrite Hlen, Hlen'. done.
Qed.

Lemma malformed_row_is_skipped_silently_witness :
  List.length (r_cells malformed_row) < 7
  /\ List.length (End.cols (End.Row ["C-1"; "Title"] true
                      (End.Modal true None None None None None []) [])) < 6
  /\ row_step "Open" malformed_row (World Absent [] ∅ []) = (Ret tt, World Absent [] ∅ [])
  /\ End.row_step "Open" (End.Row ["C-1"; "Title"] true
                            (End.Modal true None None None None None []) [])
       (End.World [] []) = (Ret tt, End.World [] []).
Proof.
  assert (H1 : List.length (r_cells malformed_row) < 7) by (cbn; lia).
  assert (H2 : List.length (End.cols (End.Row ["C-1"; "Title"] true
                      (End.Modal true None None None None None []) [])) < 6)
    by (cbn; lia).
  split; [exact H1|]. split; [exact H2|].
  destruct (malformed_row_is_skipped_silently "Open" malformed_row (World Absent [] ∅ [])
              "Open" _ (End.World [] []) H1 H2) as (_ & Ha & Hb).
  split; [exact Ha | exact Hb].
Defined.

(** A row whose key is in the set: a log line, nothing else. *)
Lemma process_bid_row_seen (category_name : string) (r : row) (w : world) :
  7 <= List.length (r_cells r) ->
  dedup_key r ∈ w_seen w ->
  process_bid_row category_name r w
  = (Ret tt, World (w_file w) (w_io w) (w_seen w)
               (w_trace w ++ [Log INFO ("Skipping already scraped Bid ID: " +:+ dedup_key r)])).
Proof.
  intros Hlen Hin.
  assert (Hltb : Nat.ltb (List.length (r_cells r)) 7 = false) by (apply Nat.ltb_ge; lia).
  unfold process_bid_row. rewrite Hltb.
  unfold bind, seen_mem. cbn. fold (bid_id_of r). fold (dedup_key r).
  rewrite bool_decide_eq_true_2 by done. reflexivity.
Qed.

(** C4.  A row with at least seven cells whose key is already in the set of
    seen identifiers is skipped: the row step returns, the only thing added
    to the trace is the log line of the skip (no click on the title link, no
    wait for the dialog, no Escape), and the file, the fates of the writes
    (none was attempted) and the set are unchanged. *)
Theorem seen_row_is_skipped (category_name : string) (r : row) (w : world) :
  7 <= List.length (r_cells r) ->
  dedup_key r ∈ w_seen w ->
  let w' := World (w_file w) (w_io w) (w_seen w)
              (w_trace w ++ [Log INFO ("Skipping already scraped Bid ID: " +:+ dedup_key r)]) in
  process_bid_row category_name r w = (Ret tt, w')
  /\ row_step category_name r w = (Ret tt, w').
Proof.
  intros Hlen Hin w'.
  pose proof (process_bid_row_seen category_name r w Hlen Hin) as Hrow.
  split; [done|]. unfold row_step, catch. by rewrite Hrow.
Qed.

Lemma seen_row_is_skipped_witness :
  7 <= List.length (r_cells (sample_row (Some "A1")))
  /\ dedup_key (sample_row (Some "A1")) ∈ ({["A1"]} : gset string)
  /\ row_step "Open" (sample_row (Some "A1")) (World Absent [] {["A1"]} [])
     = (Ret tt, World Absent [] {["A1"]} [Log INFO "Skipping already scraped Bid ID: A1"]).
Proof.
  assert (H1 : 7 <= List.length (r_cells (sample_row (Some "A1")))) by (cbn; lia).
  assert (H2 : dedup_key (sample_row (Some "A1")) ∈ ({["A1"]} : gset string))
    by (apply elem_of_singleton; reflexivity).
  split; [exact H1|]. split; [exact H2|].
  exact (proj2 (seen_row_is_skipped "Open" (sample_row (Some "A1"))
                  (World Absent [] {["A1"]} []) H1 H2)).
Defined.

(** ** The workbook *)

(** On a workbook, when the write goes through, [append_to_excel] adds the
    record below the last row and logs nothing. *)
Lemma append_to_excel_written (bid_data : dict) (wb : workbook) (w : world) :
  w_file w = Book wb ->
  io_ok (w_io w) = true ->
  append_to_excel bid_data w
  = (Ret tt, World (Book (Workbook (wb_header wb) (wb_rows wb ++ [values bid_data])))
               (tail (w_io w)) (w_seen w) (w_trace w)).
Proof.
  destruct w as [f ios seen tr]. cbn. intros -> Hok.
  destruct ios as [|[| |] ios]; try done.
Qed.

(** On a workbook, when the write fails, [append_to_excel] still returns:
    the fault is logged and the file is left as it was. *)
Lemma append_to_excel_write_fault (bid_data : dict) (wb : workbook) (w : world) :
  w_file w = Book wb ->
  io_ok (w_io w) = false ->
  exists msg,
    append_to_excel bid_data w
    = (Ret tt, World (Book wb) (tail (w_io w)) (w_seen w)
                 (w_trace w ++ [Log ERROR msg])).
Proof.
  destruct w as [f ios seen tr]. cbn. intros -> Hok.
  destruct ios as [|[| |] ios]; try done; eexists; reflexivity.
Qed.

(** On a file that is no workbook, [append_to_excel] returns too: no write
    is attempted, the fault of opening the file is logged. *)
Lemma append_to_excel_unreadable (bid_data : dict) (w : world) :
  w_file w = Unreadable ->
  exists msg,
    append_to_excel bid_data w
    = (Ret tt, World Unreadable (w_io w) (w_seen w) (w_trace w ++ [Log ERROR msg])).
Proof.
  destruct w as [f ios seen tr]. cbn. intros ->. eexists. reflexivity.
Qed.

(** When there is no file and the write goes through, the workbook is
    created with the record's keys as header and the record as only row. *)
Lemma append_to_excel_created (bid_data : dict) (w : world) :
  w_file w = Absent ->
  io_ok (w_io w) = true ->
  append_to_excel bid_data w
  = (Ret tt, World (Book (Workbook (keys bid_data) [values bid_data]))
               (tail (w_io w)) (w_seen w)
               (w_trace w ++ [Log INFO "Created new Excel file with headers."])).
Proof.
  destruct w as [f ios seen tr]. cbn. intros -> Hok.
  destruct ios as [|[| |] ios]; try done.
Qed.

(** C6.  With no file at [EXCEL_FILE] and the creating write denied, the
    [PermissionError] leaves [append_to_excel]: the call raises instead of
    returning a logged error, nothing is logged by it, and no file is
    created.  (The write that creates the file is outside the [try] that
    guards the write to an existing file.) *)
Theorem append_create_fault_escapes
    (bid_data : dict) (ios : list io) (seen : gset string) (tr : list event) :
  append_to_excel bid_data (World Absent (IoDenied :: ios) seen tr)
  = (Raise PermissionError, World Absent ios seen tr)
  /\ append_to_excel bid_data (World Absent (IoFault :: ios) seen tr)
     = (Raise OSError, World Absent ios seen tr).
Proof. split; reflexivity. Qed.

Lemma index_of_Some k l : k ∈ l -> is_Some (index_of k l).
Proof.
  induction l as [|x l IH]; cbn.
  - by intros ?%elem_of_nil.
  - intros Hin. destruct (String.eqb_spec k x) as [->|Hne]; [by eexists|].
    apply elem_of_cons in Hin as [?|Hin]; [done|].
    destruct (IH Hin) as [i ->]. by eexists.
Qed.

Lemma column_stored_id (wb : workbook) :
  "Bid ID" ∈ wb_header wb ->
  column "Bid ID" wb = stored_id (wb_header wb) <$> wb_rows wb.
Proof.
  intros Hin. unfold column, stored_id.
  destruct (index_of_Some _ _ Hin) as [i ->]. done.
Qed.

Lemma index_of_elem k l i : index_of k l = Some i -> k ∈ l.
Proof.
  revert i. induction l as [|x l IH]; intros i; cbn; [done|].
  destruct (String.eqb_spec k x) as [->|Hne]; [intros _; left|].
  destruct (index_of k l) as [j|]; [|done]. intros _. right. by eapply IH.
Qed.

(** What [load_processed_bid_ids] returns is [loaded_ids] of the file. *)
Lemma load_processed_bid_ids_loaded (read_back : pyval -> string) (w : world) :
  exists line,
    load_processed_bid_ids read_back w
    = (Ret (loaded_ids read_back (w_file w)),
       World (w_file w) (w_io w) (w_seen w) (w_trace w ++ [line])).
Proof.
  destruct w as [f ios seen tr]. unfold load_processed_bid_ids, loaded_ids.
  destruct f as [| |wb]; cbn.
  - eexists. reflexivity.
  - eexists. reflexivity.
  - unfold catch, bind, path_exists, read_excel, load_workbook. cbn.
    destruct (bool_decide ("Bid ID" ∈ wb_header wb)); eexists; reflexivity.
Qed.

(** When every cell of the Bid ID column is read back as stored, what the
    file gives back is what it holds. *)
Lemma loaded_ids_as_stored (read_back : pyval -> string) (f : file) :
  reads_back_as_stored read_back f -> loaded_ids read_back f = stored_identifiers f.
Proof.
  destruct f as [| |wb]; cbn; [done|done|]. intros Hback.
  destruct (bool_decide ("Bid ID" ∈ wb_header wb)) eqn:Hcol.
  - f_equal. apply Forall_fmap_ext, Forall_forall. exact Hback.
  - apply bool_decide_eq_false in Hcol. unfold column.
    destruct (index_of "Bid ID" (wb_header wb)) as [i|] eqn:Hi; [|done].
    destruct Hcol. by eapply index_of_elem.
Qed.

(** C8 (as the code has it).  [load_processed_bid_ids] returns a set in
    every state of the file and never raises, touching nothing but the log,
    where it writes one line: with no file, the empty set and an INFO line
    (a fresh start); with a file that cannot be read, the empty set and an
    ERROR line; with a workbook that has no Bid ID column, the empty set and
    a WARNING line; with a workbook that has the column, the set of the texts
    read back from the cells of that column and an INFO line that counts
    them.  Whenever every cell of the column is read back as the text of the
    value that was written to it, the set returned is exactly the set of the
    identifiers the file holds. *)
Theorem load_processed_bid_ids_total (read_back : pyval -> string) (w : world) :
  exists (ids : gset string) (line : event),
    load_processed_bid_ids read_back w
    = (Ret ids, World (w_file w) (w_io w) (w_seen w) (w_trace w ++ [line]))
    /\ match w_file w with
       | Absent =>
           ids = ∅
           /\ line = Log INFO ("No existing Excel file found. " +:+ String "010" "Starting fresh.")
       | Unreadable =>
           ids = ∅ /\ exists msg, line = Log ERROR msg
       | Book wb =>
           if bool_decide ("Bid ID" ∈ wb_header wb) then
             (forall k, k ∈ ids <->
                exists stored, stored ∈ wb_rows wb
                               /\ k = read_back (stored_id (wb_header wb) stored))
             /\ line = Log INFO ("Loaded " +:+ pretty (size ids) +:+
                                 " previously scraped bid IDs.")
           else
             ids = ∅
             /\ line = Log WARNING "Column 'Bid ID' not found in Excel. Starting with an empty set."
       end
    /\ (reads_back_as_stored read_back (w_file w) -> ids = stored_identifiers (w_file w)).
Proof.
  assert (Hexact : reads_back_as_stored read_back (w_file w) ->
                   loaded_ids read_back (w_file w) = stored_identifiers (w_file w))
    by apply loaded_ids_as_stored.
  destruct w as [f ios seen tr]. unfold load_processed_bid_ids.
  destruct f as [| |wb]; cbn in Hexact |- *.
  - eexists _, _. split; [reflexivity|]. done.
  - eexists _, _. split; [reflexivity|]. split; [|done]. split; [done|]. by eexists.
  - unfold catch, bind, path_exists, read_excel, load_workbook. cbn.
    destruct (bool_decide ("Bid ID" ∈ wb_header wb)) eqn:Hcol.
    + eexists _, _. split; [reflexivity|]. split; [|exact Hexact]. split; [|done].
      apply bool_decide_eq_true in Hcol.
      intros k. rewrite elem_of_list_to_set, list_elem_of_fmap.
      rewrite (column_stored_id wb Hcol). split.
      * intros (v & -> & Hv). apply list_elem_of_fmap in Hv as (stored & -> & Hs).
        by exists stored.
      * intros (stored & Hs & ->). eexists. split; [done|].
        apply list_elem_of_fmap. by exists stored.
    + eexists _, _. split; [reflexivity|]. split; [done|exact Hexact].
Qed.

Lemma load_processed_bid_ids_total_witness :
  reads_back_as_stored pandas_str
    (own_book [values (full_bid_data "Open" (sample_row (Some "A1")) sample_modal);
               values (full_bid_data "Open" (sample_row (Some "A2")) sample_modal)])
  /\ (load_processed_bid_ids pandas_str
        (start (own_book [values (full_bid_data "Open" (sample_row (Some "A1")) sample_modal);
                          values (full_bid_data "Open" (sample_row (Some "A2")) sample_modal)])
               [])).1
     = Ret {["A1"; "A2"]}.
Proof.
  assert (H : reads_back_as_stored pandas_str
                (own_book [values (full_bid_data "Open" (sample_row (Some "A1")) sample_modal);
                           values (full_bid_data "Open" (sample_row (Some "A2")) sample_modal)])).
  { intros c Hc. change (c ∈ [PyStr "A1"; PyStr "A2"]) in Hc.
    apply elem_of_cons in Hc as [->|Hc]; [reflexivity|].
    apply list_elem_of_singleton in Hc as ->. reflexivity. }
  split; [exact H|].
  destruct (load_processed_bid_ids_total pandas_str
              (start (own_book
                        [values (full_bid_data "Open" (sample_row (Some "A1")) sample_modal);
                         values (full_bid_data "Open" (sample_row (Some "A2")) sample_modal)])
                     []))
    as (ids & line & Heq & _ & Hids).
  rewrite Heq. cbn [fst]. rewrite (Hids H). f_equal.
Defined.

(** C8 (as stated) fails.  A file that cannot be read is logged as an
    error, not as a warning: the one line written has the level ERROR.  And
    what is returned for a workbook need not be the identifiers stored: a
    record stored for a row without identifier, whose key was the text None,
    comes back from its empty cell as the text nan. *)
Lemma unreadable_store_is_logged_as_error :
  (exists msg,
     load_processed_bid_ids pandas_str (start Unreadable [])
     = (Ret ∅, World Unreadable [] ∅ [Log ERROR msg])
     /\ forall warning, Log WARNING warning ∉ [Log ERROR msg])
  /\ (load_processed_bid_ids pandas_str
        (start (own_book [values (full_bid_data "Open" (sample_row None) sample_modal)]) [])).1
     = Ret {["nan"]}
  /\ dedup_key (sample_row None) = "None"
  /\ "None" ∉ ({["nan"]} : gset string).
Proof.
  split_and!.
  - eexists. split; [reflexivity|].
    intros warning Hin%list_elem_of_singleton. discriminate Hin.
  - destruct (load_processed_bid_ids_loaded pandas_str
                (start (own_book [values (full_bid_data "Open" (sample_row None) sample_modal)])
                       [])) as [line ->].
    cbn [fst]. f_equal.
  - reflexivity.
  - intros Hin%elem_of_singleton. discriminate Hin.
Qed.

(** ** One row *)

(** The row step never raises. *)
Lemma row_step_returns (category_name : string) (r : row) (w : world) :
  exists w', row_step category_name r w = (Ret tt, w').
Proof.
  unfold row_step, catch.
  destruct (process_bid_row category_name r w) as [[[]|e] w']; eauto.
Qed.

(** A new row whose detail cannot be had: the fault is logged, and neither
    the file, nor the fates of the writes, nor the set is touched.  No
    Escape is sent. *)
Lemma row_step_detail_fault (category_name : string) (r : row) (w : world) :
  7 <= List.length (r_cells r) ->
  dedup_key r ∉ w_seen w ->
  opens_detail r = false ->
  exists evs msg,
    row_step category_name r w
    = (Ret tt, World (w_file w) (w_io w) (w_seen w)
                 (w_trace w ++ evs ++ [Log ERROR msg]))
    /\ SendEscape ∉ evs.
Proof.
  intros Hlen Hnew Hopen.
  assert (Hltb : Nat.ltb (List.length (r_cells r)) 7 = false) by (apply Nat.ltb_ge; lia).
  destruct w as [f ios seen tr]. cbn in Hnew.
  unfold row_step, process_bid_row. rewrite Hltb.
  unfold catch, bind, seen_mem, log, emit, raise, ret. cbn.
  fold (bid_id_of r). fold (dedup_key r).
  rewrite bool_decide_eq_false_2 by done.
  unfold opens_detail in Hopen.
  destruct (c_link (cell_at (r_cells r) 2)); cbn in *.
  2: { exists []. eexists. split; [reflexivity|]. apply not_elem_of_nil. }
  destruct (r_click_ok r); cbn in *.
  2: { exists []. eexists. split; [reflexivity|]. apply not_elem_of_nil. }
  destruct (r_modal r) as [m|]; cbn in *.
  2: { eexists [_; _]. eexists. split; [cbn; rewrite <- ?app_assoc; cbn; reflexivity|].
       rewrite !not_elem_of_cons. split_and!; try done. apply not_elem_of_nil. }
  destruct (r_escape_ok r); [done|].
  rewrite extract_modal_data_spec. cbn.
  exists ([ClickTitle (bid_id_of r); WaitModal] ++ modal_logs m). eexists.
  split; [cbn; rewrite <- ?app_assoc; cbn; reflexivity|].
  cbn. rewrite !not_elem_of_cons. split_and!; try done.
  intros Hin. destruct (proj1 (Forall_forall _ _) (modal_logs_warnings m) _ Hin). done.
Qed.

(** A new row whose detail is had: the dialog was opened and closed, and
    the row step ends as the write of the merged record does. *)
Lemma row_step_fresh (category_name : string) (r : row) (w : world) :
  7 <= List.length (r_cells r) ->
  dedup_key r ∉ w_seen w ->
  opens_detail r = true ->
  exists m evs,
    r_modal r = Some m
    /\ ClickTitle (bid_id_of r) ∈ evs
    /\ SendEscape ∈ evs
    /\ row_step category_name r w
       = catch
           (append_to_excel (full_bid_data category_name r m) >>
            seen_add (dedup_key r) >>
            log INFO ("Successfully scraped and saved Bid ID: " +:+ dedup_key r))
           (fun e => log ERROR ("Error processing a bid row: " +:+ exn_str e))
           (World (w_file w) (w_io w) (w_seen w) (w_trace w ++ evs)).
Proof.
  intros Hlen Hnew Hopen.
  assert (Hltb : Nat.ltb (List.length (r_cells r)) 7 = false) by (apply Nat.ltb_ge; lia).
  destruct w as [f ios seen tr]. cbn in Hnew.
  unfold opens_detail in Hopen.
  destruct (c_link (cell_at (r_cells r) 2)) eqn:Hlink; [|done].
  destruct (r_click_ok r) eqn:Hclick; [|done].
  destruct (r_modal r) as [m|] eqn:Hmodal; [|done].
  destruct (r_escape_ok r) eqn:Hesc; [|done].
  exists m, ([ClickTitle (bid_id_of r); WaitModal] ++ modal_logs m ++ [SendEscape]).
  split; [done|]. split; [left|]. split; [set_solver|].
  unfold row_step, process_bid_row. rewrite Hltb, Hlink, Hclick, Hmodal, Hesc.
  unfold catch, bind, seen_mem, log, emit, raise, ret. cbn.
  fold (bid_id_of r). fold (dedup_key r).
  rewrite bool_decide_eq_false_2 by done.
  rewrite extract_modal_data_spec. cbn.
  fold (full_bid_data category_name r m).
  rewrite <- !app_assoc. cbn. reflexivity.
Qed.

(** The row step never raises, only adds to the trace, and what it does to
    the file, the fates of the writes and the set is [row_effect]. *)
Lemma row_step_effect (category_name : string) (r : row) (w : world) :
  exists w' evs,
    row_step category_name r w = (Ret tt, w')
    /\ disk_and_set w' = row_effect category_name r (disk_and_set w)
    /\ w_trace w' = w_trace w ++ evs.
Proof.
  unfold row_effect.
  destruct (Nat.ltb (List.length (r_cells r)) 7) eqn:Hltb.
  { apply Nat.ltb_lt in Hltb.
    exists w, []. rewrite app_nil_r. split; [|done].
    unfold row_step, catch, process_bid_row.
    apply Nat.ltb_lt in Hltb. by rewrite Hltb. }
  apply Nat.ltb_ge in Hltb.
  destruct (bool_decide (dedup_key r ∈ (disk_and_set w).2)) eqn:Hseen.
  { apply bool_decide_eq_true in Hseen.
    eexists _, _. unfold row_step, catch.
    rewrite (process_bid_row_seen category_name r w Hltb Hseen).
    split; [reflexivity|]. done. }
  apply bool_decide_eq_false in Hseen.
  destruct (opens_detail r) eqn:Hopen.
  2: { destruct (row_step_detail_fault category_name r w Hltb Hseen Hopen)
         as (evs & msg & -> & _).
       eexists _, _. split; [reflexivity|]. done. }
  destruct (row_step_fresh category_name r w Hltb Hseen Hopen)
    as (m & evs & -> & _ & _ & ->).
  destruct w as [f ios seen tr]. unfold disk_and_set, store_effect. cbn.
  destruct f as [| |wb]; [| |]; destruct ios as [|[| |] ios];
    eexists _, _; (split; [reflexivity|]); cbn; rewrite <- ?app_assoc; done.
Qed.

Lemma rows_loop_effect (category_name : string) (rows : list row) (w : world) :
  exists w' evs,
    rows_loop category_name rows w = (Ret tt, w')
    /\ disk_and_set w' = rows_effect category_name rows (disk_and_set w)
    /\ w_trace w' = w_trace w ++ evs.
Proof.
  revert w. induction rows as [|r rows IH]; intros w.
  - exists w, []. rewrite app_nil_r. done.
  - destruct (row_step_effect category_name r w) as (w1 & evs1 & Hstep & Hs1 & Ht1).
    destruct (IH w1) as (w2 & evs2 & Hloop & Hs2 & Ht2).
    exists w2, (evs1 ++ evs2). cbn. unfold bind at 1. rewrite Hstep, Hloop.
    split; [done|]. unfold rows_effect in *. cbn. rewrite Hs2, Hs1, Ht2, Ht1.
    by rewrite app_assoc.
Qed.

(** ** The page loop *)

Lemma next_unavailable_not_clicked (p : page) :
  next_unavailable p = true -> next_clicked p = false.
Proof.
  unfold next_unavailable, next_clicked.
  destruct (p_next p) as [[[cls|] [|]]|]; cbn; try done. by intros ->.
Qed.

(** One turn of the page loop on a page that has rows: the rows are looked
    up once, each is stepped through, and the pager decides what follows. *)
Lemma scrape_bids_from_table_page
    (category_name : string) (p : page) (pages : list page) (w w1 : world) :
  p_rows p <> [] ->
  rows_loop category_name (p_rows p)
    (World (w_file w) (w_io w) (w_seen w) (w_trace w ++ [WaitRows; FindRows])) = (Ret tt, w1) ->
  scrape_bids_from_table category_name (p :: pages) w
  = (let* more := navigate_to_next_page p in
     if more then scrape_bids_from_table category_name pages
     else log INFO "No more pages to scrape in this category.") w1.
Proof.
  intros Hrows Hloop. destruct w as [f ios seen tr]. cbn in Hloop.
  cbn [scrape_bids_from_table]. destruct (p_rows p) as [|r rows] eqn:Hp; [done|].
  unfold bind at 1. unfold emit at 1. cbn [w_file w_io w_seen w_trace].
  unfold bind at 1. unfold ret at 1.
  unfold bind at 1. unfold emit at 1. cbn [w_file w_io w_seen w_trace].
  unfold bind at 1. rewrite <- app_assoc. cbn [app]. rewrite Hloop. reflexivity.
Qed.

(** When the pager does not click, the page loop ends with that page: the
    remaining pages are never looked at. *)
Lemma page_loop_ends_without_click
    (category_name : string) (p : page) (pages : list page) (w : world) :
  p_rows p <> [] ->
  next_clicked p = false ->
  exists w1 evs,
    rows_loop category_name (p_rows p)
      (World (w_file w) (w_io w) (w_seen w) (w_trace w ++ [WaitRows; FindRows])) = (Ret tt, w1)
    /\ navigate_to_next_page p w1
       = (Ret false, World (w_file w1) (w_io w1) (w_seen w1) (w_trace w1 ++ FindNext :: evs))
    /\ Forall (fun e => exists msg, e = Log ERROR msg) evs
    /\ (next_unavailable p = true -> p_next p <> None -> evs = [])
    /\ scrape_bids_from_table category_name (p :: pages) w
       = (Ret tt, World (w_file w1) (w_io w1) (w_seen w1)
                    (w_trace w1 ++ FindNext :: evs ++
                     [Log INFO "No more pages to scrape in this category."])).
Proof.
  intros Hrows Hfalse.
  destruct (rows_loop_effect category_name (p_rows p)
              (World (w_file w) (w_io w) (w_seen w) (w_trace w ++ [WaitRows; FindRows])))
    as (w1 & evs1 & Hloop & _ & _).
  destruct (navigate_to_next_page_spec p w1) as (evs & Hnav & _ & Hlogs & Hoff).
  rewrite Hfalse in Hnav.
  exists w1, evs. split_and!; try done; [by apply Hlogs|].
  rewrite (scrape_bids_from_table_page category_name p pages w w1 Hrows Hloop).
  unfold bind at 1. rewrite Hnav. unfold log, emit. cbn.
  by rewrite <- app_assoc.
Qed.



(** ** Marking a row as seen *)

(** C1 (as the code has it).  For a new row whose detail is had, on a file
    that exists, the row step returns and the row's key is added to the set
    of seen identifiers, whether the write went through or not:
    [append_to_excel] logs a failed write and returns, and nothing tells
    [process_bid_row] that it failed.  When the write goes through the
    record is the new last row of the workbook.  When it fails (the file is
    no workbook, or the write is refused) the file is left as it was, an
    ERROR line is logged, and a later run, which loads its set from the
    file, loads the same set as it would have before this row. *)
Theorem key_is_marked_seen_when_append_returns
    (category_name : string) (r : row) (w : world) :
  7 <= List.length (r_cells r) ->
  dedup_key r ∉ w_seen w ->
  opens_detail r = true ->
  w_file w <> Absent ->
  exists w' m evs,
    row_step category_name r w = (Ret tt, w')
    /\ r_modal r = Some m
    /\ w_seen w' = {[dedup_key r]} ∪ w_seen w
    /\ w_trace w' = w_trace w ++ evs
    /\ (forall wb, w_file w = Book wb -> io_ok (w_io w) = true ->
          w_file w' = Book (Workbook (wb_header wb)
                              (wb_rows wb ++ [values (full_bid_data category_name r m)])))
    /\ (w_file w = Unreadable \/ io_ok (w_io w) = false ->
          w_file w' = w_file w
          /\ (exists msg, Log ERROR msg ∈ evs)
          /\ forall read_back ios,
               load_processed_bid_ids read_back (start (w_file w') ios)
               = load_processed_bid_ids read_back (start (w_file w) ios)).
Proof.
  intros Hlen Hnew Hopen Hfile.
  destruct (row_step_fresh category_name r w Hlen Hnew Hopen)
    as (m & evs & Hm & _ & _ & ->).
  destruct w as [f ios seen tr]. cbn in *.
  destruct f as [| |wb]; [done| |].
  - eexists _, m, _. split; [reflexivity|]. cbn. rewrite <- !app_assoc.
    split_and!; try done. intros _. split_and!; try done.
    eexists. apply elem_of_app. right. left.
  - destruct ios as [|[| |] ios]; (eexists _, m, _; split; [reflexivity|]);
      cbn; rewrite <- ?app_assoc; (split_and!; try done).
    + by intros wb' [= <-] _.
    + by intros [|].
    + by intros wb' [= <-] _.
    + by intros [|].
    + intros _. split_and!; try done.
      eexists. apply elem_of_app. right. left.
    + intros _. split_and!; try done.
      eexists. apply elem_of_app. right. left.
Qed.

Lemma key_is_marked_seen_when_append_returns_witness :
  7 <= List.length (r_cells (sample_row (Some "A1")))
  /\ (dedup_key (sample_row (Some "A1")) ∉ w_seen (World (own_book []) [IoDenied] ∅ []))
  /\ opens_detail (sample_row (Some "A1")) = true
  /\ w_file (World (own_book []) [IoDenied] ∅ []) <> Absent
  /\ exists w',
       row_step "Open" (sample_row (Some "A1")) (World (own_book []) [IoDenied] ∅ [])
       = (Ret tt, w')
       /\ w_seen w' = {[dedup_key (sample_row (Some "A1"))]} ∪ ∅.
Proof.
  assert (H1 : 7 <= List.length (r_cells (sample_row (Some "A1")))) by (cbn; lia).
  assert (H2 : dedup_key (sample_row (Some "A1")) ∉ w_seen (World (own_book []) [IoDenied] ∅ []))
    by apply not_elem_of_empty.
  assert (H3 : opens_detail (sample_row (Some "A1")) = true) by reflexivity.
  assert (H4 : w_file (World (own_book []) [IoDenied] ∅ []) <> Absent) by done.
  split; [exact H1|]. split; [exact H2|]. split; [exact H3|]. split; [exact H4|].
  destruct (key_is_marked_seen_when_append_returns "Open" (sample_row (Some "A1"))
              (World (own_book []) [IoDenied] ∅ []) H1 H2 H3 H4)
    as (w' & m & evs & Ha & _ & Hb & _).
  exists w'. split; [exact Ha | exact Hb].
Defined.

(** C1 (as stated) fails: the workbook exists and the write is denied; the
    append fails, as the ERROR line and the unchanged workbook show, and the
    key "A1" is in the set of seen identifiers all the same, under a log
    line that reports the record as saved. *)
Lemma failed_append_still_marks_seen :
  row_step "Open" (sample_row (Some "A1")) (World (own_book []) [IoDenied] ∅ [])
  = (Ret tt,
     World (own_book []) [] ({["A1"]} ∪ ∅)
       [ClickTitle (PyStr "A1"); WaitModal; SendEscape;
        Log ERROR "Permission denied: Could not write to 'delaware_all_bids.xlsx'. It may be open.";
        Log INFO "Successfully scraped and saved Bid ID: A1"])
  /\ "A1" ∈ ({["A1"]} ∪ ∅ : gset string).
Proof.
  split; [|set_solver].
  unfold row_step, process_bid_row. cbn [r_cells sample_row List.length Nat.ltb Nat.leb].
  unfold catch, bind, seen_mem, log, emit, raise, ret.
  cbn [w_seen]. rewrite bool_decide_eq_false_2 by apply not_elem_of_empty.
  reflexivity.
Qed.

(** ** A row that fails *)

(** The loop over the rows of a page, cut in two. *)
Lemma rows_loop_app (category_name : string) (rows1 rows2 : list row) (w w1 : world) :
  rows_loop category_name rows1 w = (Ret tt, w1) ->
  rows_loop category_name (rows1 ++ rows2) w = rows_loop category_name rows2 w1.
Proof.
  revert w. induction rows1 as [|r rows1 IH]; intros w Hloop; cbn in *.
  - by injection Hloop as ->.
  - unfold bind in *. destruct (row_step_returns category_name r w) as [w' Hstep].
    rewrite Hstep in *. by apply IH.
Qed.

Lemma rows_effect_app category_name rows1 rows2 s :
  rows_effect category_name (rows1 ++ rows2) s
  = rows_effect category_name rows2 (rows_effect category_name rows1 s).
Proof. apply foldl_app. Qed.

(** A row whose detail cannot be had leaves file, fates and set alone. *)
Lemma row_effect_detail_fault category_name r s :
  opens_detail r = false -> row_effect category_name r s = s.
Proof.
  intros Hopen. unfold row_effect. rewrite Hopen.
  destruct (Nat.ltb (List.length (r_cells r)) 7); [done|].
  by destruct (bool_decide (dedup_key r ∈ s.2)).
Qed.

(** The handler of end.py's row loop: a failed click on the row is printed,
    the close of a pop-up is tried, and the loop goes on. *)
Lemma end_row_step_click_fault (status : string) (r : End.row) (w : End.world) :
  6 <= List.length (End.cols r) ->
  End.click_ok r = false ->
  End.row_step status r w
  = (Ret tt,
     End.World (End.all_bids_list w)
       (End.trace w ++
        End.Print ("Error processing a row: " +:+ exn_str WebDriverException) ::
        match End.close_btn r with
        | [] => []
        | true :: _ => [End.ClickClose]
        | false :: _ =>
            [End.Print ("Could not close stray modal: " +:+ exn_str WebDriverException)]
        end)).
Proof.
  intros Hlen Hclick.
  assert (Hltb : Nat.ltb (List.length (End.cols r)) 6 = false) by (apply Nat.ltb_ge; lia).
  destruct w as [bids tr].
  unfold End.row_step, End.process_row, End.click_close. rewrite Hltb, Hclick.
  unfold catch, bind, End.print, End.emit, raise, ret. cbn.
  destruct (End.close_btn r) as [|[|] ?]; cbn; rewrite <- ?app_assoc; reflexivity.
Qed.

(** ** A whole run, as the rows it steps through *)

Lemma rows_effect_visits category_name rows s :
  rows_effect category_name rows s = visits_effect (pair category_name <$> rows) s.
Proof.
  unfold rows_effect, visits_effect. revert s.
  induction rows as [|r rows IH]; intros s; cbn; [done|]. apply IH.
Qed.

Lemma visits_effect_app visits1 visits2 s :
  visits_effect (visits1 ++ visits2) s = visits_effect visits2 (visits_effect visits1 s).
Proof. apply foldl_app. Qed.

(** The page loop may end by a timeout, but what it did until then to the
    file, the fates and the set is the effect of the rows it visited. *)
Lemma scrape_bids_from_table_effect (category_name : string) (pages : list page) (w : world) :
  exists o w' evs,
    scrape_bids_from_table category_name pages w = (o, w')
    /\ disk_and_set w' = rows_effect category_name (visited_rows pages) (disk_and_set w)
    /\ w_trace w' = w_trace w ++ evs.
Proof.
  revert w. induction pages as [|p pages IH]; intros w.
  - eexists _, _, _. split; [reflexivity|]. done.
  - destruct (p_rows p) as [|r rows] eqn:Hp.
    { cbn. rewrite Hp. eexists _, _, _. split; [reflexivity|]. done. }
    assert (Hne : p_rows p <> []) by (by rewrite Hp).
    destruct (rows_loop_effect category_name (p_rows p)
                (World (w_file w) (w_io w) (w_seen w) (w_trace w ++ [WaitRows; FindRows])))
      as (w1 & evs1 & Hloop & Hs1 & Ht1).
    rewrite (scrape_bids_from_table_page category_name p pages w w1 Hne Hloop).
    destruct (navigate_to_next_page_spec p w1) as (evs2 & Hnav & _).
    unfold bind at 1. rewrite Hnav.
    cbn [visited_rows]. rewrite Hp, <- Hp.
    destruct (next_clicked p).
    + destruct (IH (World (w_file w1) (w_io w1) (w_seen w1) (w_trace w1 ++ FindNext :: evs2)))
        as (o & w2 & evs3 & Hrest & Hs2 & Ht2).
      eexists o, w2, _. split; [exact Hrest|].
      split.
      * rewrite Hs2, rows_effect_app. f_equal. exact Hs1.
      * rewrite Ht2. cbn. rewrite Ht1. cbn. rewrite <- !app_assoc. reflexivity.
    + eexists _, _, _. split; [reflexivity|]. rewrite app_nil_r. split.
      * exact Hs1.
      * cbn. rewrite Ht1. cbn. rewrite <- !app_assoc. reflexivity.
Qed.

Lemma category_step_effect (s : site) (c : string * string) (w : world) :
  exists w' evs,
    category_step s c w = (Ret tt, w')
    /\ disk_and_set w' = visits_effect (category_visits s c) (disk_and_set w)
    /\ w_trace w' = w_trace w ++ evs.
Proof.
  destruct c as [category_name tab_id]. unfold category_step, category_visits. cbn.
  destruct (site_tab tab_id s) as [pages|].
  - destruct (scrape_bids_from_table_effect category_name pages
                (World (w_file w) (w_io w) (w_seen w)
                   ((w_trace w ++ [Log INFO ("--- Processing category: " +:+ category_name +:+ " ---")])
                    ++ [ClickTab tab_id])))
      as (o & w1 & evs & Hscrape & Hs & Ht).
    rewrite <- rows_effect_visits.
    unfold catch, bind, log, emit, raise, ret. cbn. rewrite Hscrape.
    destruct o as [[]|e]; eexists _, _; (split; [reflexivity|]); cbn;
      rewrite ?Ht; cbn; rewrite <- ?app_assoc; split; try done; exact Hs.
  - eexists _, _. split; [reflexivity|]. cbn. rewrite <- ?app_assoc. done.
Qed.

Lemma categories_loop_effect (s : site) (cs : list (string * string)) (w : world) :
  exists w' evs,
    categories_loop s cs w = (Ret tt, w')
    /\ disk_and_set w' = visits_effect (cs ≫= category_visits s) (disk_and_set w)
    /\ w_trace w' = w_trace w ++ evs.
Proof.
  revert w. induction cs as [|c cs IH]; intros w.
  - exists w, []. rewrite app_nil_r. done.
  - destruct (category_step_effect s c w) as (w1 & evs1 & Hstep & Hs1 & Ht1).
    destruct (IH w1) as (w2 & evs2 & Hloop & Hs2 & Ht2).
    exists w2, (evs1 ++ evs2). cbn [categories_loop]. unfold bind at 1.
    rewrite Hstep, Hloop. split; [done|]. split.
    + by rewrite bind_cons, visits_effect_app, Hs2, Hs1.
    + by rewrite Ht2, Ht1, app_assoc.
Qed.

(** A run returns, and what it leaves of the file, the fates and the set is
    the effect of the rows it steps through on the set it loaded. *)
Lemma run_effect (read_back : pyval -> string) (s : site) (f : file) (ios : list io) :
  disk_and_set (run read_back s f ios)
  = visits_effect (site_visits s) (f, ios, loaded_ids read_back f).
Proof.
  unfold run, main, finally, start.
  destruct (load_processed_bid_ids_loaded read_back (World f ios ∅ [])) as [line Hload].
  unfold bind at 1. rewrite Hload. cbn [w_file].
  unfold bind at 1. unfold seen_bind at 1. cbn [w_file w_io w_seen w_trace].
  unfold bind at 1. unfold navigate_to_bids_page, log, emit. cbn [w_file w_io w_seen w_trace].
  unfold process_bid_categories.
  destruct (categories_loop_effect s categories
              (World f ios (loaded_ids read_back f)
                 (([] ++ [line]) ++ [Log INFO ("Navigated to " +:+ BASE_URL)])))
    as (w' & evs & Hloop & Hs & _).
  rewrite Hloop. cbn. exact Hs.
Qed.

(** ** No row aborts the run *)

Lemma end_row_step_returns (status : string) (r : End.row) (w : End.world) :
  exists w', End.row_step status r w = (Ret tt, w').
Proof.
  unfold End.row_step, catch.
  destruct (End.process_row status r w) as [[[]|e] w1]; [by eexists|].
  unfold bind, End.print, End.emit, End.click_close, ret, raise. cbn.
  destruct (End.close_btn r) as [|[|] ?]; cbn; by eexists.
Qed.

Lemma end_rows_loop_returns (status : string) (rows : list End.row) (w : End.world) :
  exists w', End.rows_loop status rows w = (Ret tt, w').
Proof.
  revert w. induction rows as [|r rows IH]; intros w; [by eexists|].
  destruct (end_row_step_returns status r w) as [w1 Hstep].
  cbn [End.rows_loop]. unfold bind at 1. rewrite Hstep. apply IH.
Qed.

(** C3 (as the code has it).  In scraper.py a row whose detail cannot be
    had (no title link, a click or an Escape that fails, a dialog that
    never appears) does not stop the loop over the page: the loop returns;
    the row itself changes neither the file nor the set, and when the row is
    new its fault is logged in one ERROR line with no Escape sent, that is,
    without any attempt to close a dialog left open; the rows before and
    after it are stepped through, and what they do to the file and to the
    set is what they would do on the page without the failing row.  The
    close of a dialog left open is attempted in end.py only: there, after a
    click on a row fails, the step returns with the list of records as it
    was, having printed the fault in one line and then clicked the close
    button, if there is one (a click that fails is printed too).  In both
    programs this is what the handler does with whatever the row raises,
    and no loop over rows is left by an exception. *)
Theorem row_fault_is_isolated
    (category_name : string) (before after : list row) (r : row) (w : world)
    (status : string) (r' : End.row) (w' : End.world) :
  7 <= List.length (r_cells r) ->
  opens_detail r = false ->
  6 <= List.length (End.cols r') ->
  End.click_ok r' = false ->
  (exists w1 w2 w3,
     rows_loop category_name before w = (Ret tt, w1)
     /\ row_step category_name r w1 = (Ret tt, w2)
     /\ disk_and_set w2 = disk_and_set w1
     /\ (dedup_key r ∉ w_seen w1 ->
         exists evs msg,
           w_trace w2 = w_trace w1 ++ evs ++ [Log ERROR msg] /\ SendEscape ∉ evs)
     /\ rows_loop category_name after w2 = (Ret tt, w3)
     /\ rows_loop category_name (before ++ r :: after) w = (Ret tt, w3)
     /\ disk_and_set w3 = rows_effect category_name (before ++ after) (disk_and_set w))
  /\ (forall c0 r0 w0 e w0',
        process_bid_row c0 r0 w0 = (Raise e, w0') ->
        row_step c0 r0 w0
        = (Ret tt, World (w_file w0') (w_io w0') (w_seen w0')
                     (w_trace w0' ++ [Log ERROR ("Error processing a bid row: " +:+ exn_str e)])))
  /\ (forall s w0, exists w0', process_bid_categories s w0 = (Ret tt, w0'))
  /\ End.row_step status r' w'
     = (Ret tt,
        End.World (End.all_bids_list w')
          (End.trace w' ++
           End.Print ("Error processing a row: " +:+ exn_str WebDriverException) ::
           match End.close_btn r' with
           | [] => []
           | true :: _ => [End.ClickClose]
           | false :: _ =>
               [End.Print ("Could not close stray modal: " +:+ exn_str WebDriverException)]
           end))
  /\ (forall status0 r0 w0 e w0',
        End.process_row status0 r0 w0 = (Raise e, w0') ->
        End.row_step status0 r0 w0
        = (Ret tt,
           End.World (End.all_bids_list w0')
             (End.trace w0' ++
              End.Print ("Error processing a row: " +:+ exn_str e) ::
              match End.close_btn r0 with
              | [] => []
              | true :: _ => [End.ClickClose]
              | false :: _ =>
                  [End.Print ("Could not close stray modal: " +:+
                              exn_str WebDriverException)]
              end)))
  /\ (forall status0 rows w0, exists w0', End.rows_loop status0 rows w0 = (Ret tt, w0')).
Proof.
  intros Hlen Hopen Hlen' Hclick. split; [|split; [|split; [|split; [|split]]]].
  5: { intros status0 r0 [bids0 tr0] e [bids0' tr0'] Hraise.
       unfold End.row_step, catch. rewrite Hraise.
       unfold bind, End.print, End.emit, End.click_close, ret, raise. cbn.
       destruct (End.close_btn r0) as [|[|] ?]; cbn; rewrite <- ?app_assoc; reflexivity. }
  5: { intros status0 rows w0. apply end_rows_loop_returns. }
  2: { intros c0 r0 w0 e w0' Hraise. unfold row_step, catch. by rewrite Hraise. }
  2: { intros s w0. destruct (categories_loop_effect s categories w0) as (w0' & _ & H & _).
       by exists w0'. }
  - destruct (rows_loop_effect category_name before w) as (w1 & evs1 & Hl1 & Hs1 & _).
    destruct (row_step_effect category_name r w1) as (w2 & evs2 & Hstep & Hs2 & _).
    destruct (rows_loop_effect category_name after w2) as (w3 & evs3 & Hl3 & Hs3 & _).
    rewrite (row_effect_detail_fault _ _ _ Hopen) in Hs2.
    exists w1, w2, w3. split_and!; try done.
    + intros Hnew.
      destruct (row_step_detail_fault category_name r w1 Hlen Hnew Hopen)
        as (evs & msg & Heq & Hesc).
      rewrite Heq in Hstep. injection Hstep as <-. by exists evs, msg.
    + rewrite (rows_loop_app _ _ _ _ _ Hl1). cbn. unfold bind at 1. by rewrite Hstep.
    + rewrite Hs3, Hs2, Hs1. by rewrite rows_effect_app.
  - exact (end_row_step_click_fault status r' w' Hlen' Hclick).
Qed.

Lemma row_fault_is_isolated_witness :
  7 <= List.length (r_cells (stuck_row (Some "A2")))
  /\ opens_detail (stuck_row (Some "A2")) = false
  /\ 6 <= List.length (End.cols blocked_row)
  /\ End.click_ok blocked_row = false
  /\ (exists w3,
        rows_loop "Open" ([sample_row (Some "A1")] ++ stuck_row (Some "A2") ::
                          [sample_row (Some "A3")]) (World Absent [] ∅ [])
        = (Ret tt, w3)
        /\ disk_and_set w3
           = rows_effect "Open" ([sample_row (Some "A1")] ++ [sample_row (Some "A3")])
               (disk_and_set (World Absent [] ∅ [])))
  /\ End.row_step "Open" blocked_row (End.World [] [])
     = (Ret tt,
        End.World []
          [End.Print ("Error processing a row: " +:+ exn_str WebDriverException);
           End.ClickClose]).
Proof.
  assert (H1 : 7 <= List.length (r_cells (stuck_row (Some "A2")))) by (cbn; lia).
  assert (H2 : opens_detail (stuck_row (Some "A2")) = false) by reflexivity.
  assert (H3 : 6 <= List.length (End.cols blocked_row)) by (cbn; lia).
  assert (H4 : End.click_ok blocked_row = false) by reflexivity.
  split; [exact H1|]. split; [exact H2|]. split; [exact H3|]. split; [exact H4|].
  destruct (row_fault_is_isolated "Open" [sample_row (Some "A1")] [sample_row (Some "A3")]
              (stuck_row (Some "A2")) (World Absent [] ∅ [])
              "Open" blocked_row (End.World [] []) H1 H2 H3 H4)
    as [(w1 & w2 & w3 & _ & _ & _ & _ & _ & Ha & Hb) (_ & _ & Hc & _)].
  split.
  - exists w3. split; [exact Ha | exact Hb].
  - exact Hc.
Defined.

(** C3 (as stated) fails in scraper.py: the title link of the row was
    clicked and the dialog did not appear in time; the handler logs the
    fault and does nothing else, no Escape is sent to close a dialog that
    may still come up. *)
Lemma scraper_row_fault_has_no_recovery_close :
  row_step "Open" (stuck_row (Some "A2")) (World Absent [] ∅ [])
  = (Ret tt,
     World Absent [] ∅
       [ClickTitle (PyStr "A2"); WaitModal;
        Log ERROR "Error processing a bid row: Message: timeout"])
  /\ SendEscape ∉ [ClickTitle (PyStr "A2"); WaitModal;
                   Log ERROR "Error processing a bid row: Message: timeout"].
Proof.
  split; [|by_compute].
  unfold row_step, process_bid_row. cbn [r_cells stuck_row sample_row List.length Nat.ltb Nat.leb].
  unfold catch, bind, seen_mem, log, emit, raise, ret.
  cbn [w_seen]. rewrite bool_decide_eq_false_2 by apply not_elem_of_empty.
  reflexivity.
Qed.

(** ** Two runs over the same data *)

Lemma loaded_ids_append read_back header stored x i :
  index_of "Bid ID" header = Some i ->
  loaded_ids read_back (Book (Workbook header (stored ++ [x])))
  = loaded_ids read_back (Book (Workbook header stored))
    ∪ {[read_back (default PyNone (x !! i))]}.
Proof.
  intros Hi. unfold loaded_ids, column. cbn. rewrite Hi.
  rewrite bool_decide_eq_true_2 by (by eapply index_of_elem).
  rewrite !fmap_app, list_to_set_app_L. cbn. by rewrite union_empty_r_L.
Qed.

Lemma all_ok_io_ok ios : all_ok ios -> io_ok ios = true /\ all_ok (tail ios).
Proof.
  intros H. destruct H as [|o ios -> H]; cbn; [split; [done|constructor]|done].
Qed.

Lemma opens_detail_modal r : opens_detail r = true -> is_Some (r_modal r).
Proof.
  unfold opens_detail. destruct (r_modal r); [by eexists|].
  rewrite andb_false_r. done.
Qed.

(** A row that would not write, or whose key is in the set, changes
    nothing. *)
Lemma row_effect_known category_name r s :
  (attempted r = true -> dedup_key r ∈ s.2) -> row_effect category_name r s = s.
Proof.
  unfold attempted, row_effect. intros Hin.
  destruct (Nat.ltb (List.length (r_cells r)) 7); [done|].
  destruct (opens_detail r); cbn in Hin.
  - rewrite bool_decide_eq_true_2 by auto. done.
  - by destruct (bool_decide _).
Qed.

Lemma visits_effect_known visits s :
  (forall v, v ∈ visits -> attempted v.2 = true -> dedup_key v.2 ∈ s.2) ->
  visits_effect visits s = s.
Proof.
  unfold visits_effect. induction visits as [|v visits IH]; intros Hall; cbn; [done|].
  rewrite row_effect_known.
  - apply IH. intros v' Hv'. apply Hall. by right.
  - apply Hall. left.
Qed.

(** A file that is no workbook stays as it is. *)
Lemma row_effect_unreadable category_name r ios seen :
  (row_effect category_name r (Unreadable, ios, seen)).1 = (Unreadable, ios).
Proof.
  unfold row_effect.
  destruct (Nat.ltb (List.length (r_cells r)) 7); [done|].
  destruct (bool_decide _); [done|].
  destruct (opens_detail r); [|done].
  by destruct (r_modal r).
Qed.

Lemma visits_effect_unreadable visits ios seen :
  (visits_effect visits (Unreadable, ios, seen)).1 = (Unreadable, ios).
Proof.
  unfold visits_effect. revert seen.
  induction visits as [|v visits IH]; intros seen; cbn [foldl]; [done|].
  pose proof (row_effect_unreadable v.1 v.2 ios seen) as Hstep.
  destruct (row_effect v.1 v.2 (Unreadable, ios, seen)) as [[f' ios'] seen'].
  cbn in Hstep. injection Hstep as -> ->. apply IH.
Qed.

Lemma loaded_ids_created read_back category_name r m :
  loaded_ids read_back
    (Book (Workbook (keys (full_bid_data category_name r m))
             [values (full_bid_data category_name r m)]))
  = {[read_back (bid_id_of r)]}.
Proof.
  unfold loaded_ids. cbn [wb_header].
  rewrite bool_decide_eq_true_2 by by_compute.
  change (column "Bid ID" _) with [bid_id_of r]. cbn. by rewrite union_empty_r_L.
Qed.

(** One row in a run without failed writes: the state stays settled, the
    file loses no identifier, and a row that gets as far as the write has
    its key among the identifiers of the file afterwards. *)
Lemma row_effect_settled read_back category_name r s :
  (attempted r = true -> read_back (bid_id_of r) = dedup_key r) ->
  settled read_back s ->
  settled read_back (row_effect category_name r s)
  /\ loaded_ids read_back s.1.1 ⊆ loaded_ids read_back (row_effect category_name r s).1.1
  /\ (attempted r = true ->
      dedup_key r ∈ loaded_ids read_back (row_effect category_name r s).1.1).
Proof.
  intros Hback (Hio & Hown & Hsub). destruct s as [[f ios] seen]. cbn in Hio, Hown, Hsub.
  unfold attempted in *. unfold row_effect. cbn [fst snd].
  destruct (Nat.ltb (List.length (r_cells r)) 7); [done|].
  destruct (bool_decide (dedup_key r ∈ seen)) eqn:Hseen.
  { apply bool_decide_eq_true in Hseen. split; [done|]. split; [done|].
    intros _. by apply Hsub. }
  destruct (opens_detail r) eqn:Hopen; [|done].
  destruct (opens_detail_modal r Hopen) as [m Hm]. rewrite Hm.
  destruct (all_ok_io_ok ios Hio) as [Hok Htail].
  specialize (Hback eq_refl).
  unfold store_effect. rewrite Hok. destruct f as [| |wb]; [|done|].
  - unfold settled. cbn [fst snd].
    rewrite loaded_ids_created, Hback. cbn in Hsub.
    assert (seen = ∅) as -> by (apply elem_of_equiv_empty_L; intros x Hx; by apply Hsub in Hx).
    split_and!; try done; set_solver.
  - destruct wb as [header stored]. cbn in Hown. unfold settled. cbn [fst snd wb_header wb_rows].
    rewrite (loaded_ids_append read_back header stored _ 1 Hown).
    change (default PyNone (values (full_bid_data category_name r m) !! 1))
      with (bid_id_of r).
    rewrite Hback. cbn in Hsub. split_and!; try done; set_solver.
Qed.

Lemma visits_effect_settled read_back visits s :
  (forall v, v ∈ visits -> attempted v.2 = true -> read_back (bid_id_of v.2) = dedup_key v.2) ->
  settled read_back s ->
  settled read_back (visits_effect visits s)
  /\ loaded_ids read_back s.1.1 ⊆ loaded_ids read_back (visits_effect visits s).1.1
  /\ (forall v, v ∈ visits -> attempted v.2 = true ->
        dedup_key v.2 ∈ loaded_ids read_back (visits_effect visits s).1.1).
Proof.
  unfold visits_effect. revert s.
  induction visits as [|v visits IH]; intros s Hback Hset; cbn.
  - split; [done|]. split; [done|]. by intros v ?%elem_of_nil.
  - destruct (row_effect_settled read_back v.1 v.2 s) as (Hset1 & Hmono1 & Hkey1);
      [apply Hback; left | done |].
    destruct (IH (row_effect v.1 v.2 s)) as (Hset2 & Hmono2 & Hkey2);
      [intros v' Hv'; apply Hback; by right | done |].
    split; [done|]. split; [set_solver|].
    intros v' Hv' Hatt. apply elem_of_cons in Hv' as [->|Hv'].
    + apply Hmono2. by apply Hkey1.
    + by apply Hkey2.
Qed.




(** ** Rows without an identifier *)

Lemma store_effect_seen_mono d key k s :
  k ∈ s.2 -> k ∈ (store_effect d key s).2.
Proof.
  destruct s as [[f ios] seen]. cbn. intros Hk.
  destruct f as [| |wb]; cbn; try destruct (io_ok ios); cbn; set_solver.
Qed.

Lemma row_effect_seen_mono category_name r k s :
  k ∈ s.2 -> k ∈ (row_effect category_name r s).2.
Proof.
  intros Hk. unfold row_effect.
  destruct (Nat.ltb (List.length (r_cells r)) 7); [done|].
  destruct (bool_decide _); [done|].
  destruct (opens_detail r); [|done].
  destruct (r_modal r); [|done]. by apply store_effect_seen_mono.
Qed.

(** The set only grows along the rows of a page. *)
Lemma rows_loop_seen_mono (category_name : string) (rows : list row) (k : string) (w w' : world) :
  k ∈ w_seen w ->
  rows_loop category_name rows w = (Ret tt, w') ->
  k ∈ w_seen w'.
Proof.
  intros Hk Hloop.
  destruct (rows_loop_effect category_name rows w) as (w2 & evs & Hloop2 & Hs & _).
  rewrite Hloop in Hloop2. injection Hloop2 as <-.
  change (w_seen w') with (disk_and_set w').2. rewrite Hs.
  unfold rows_effect. change (w_seen w) with (disk_and_set w).2 in Hk.
  revert Hk. generalize (disk_and_set w). clear.
  induction rows as [|r rows IH]; intros s Hk; cbn; [done|].
  apply IH. by apply row_effect_seen_mono.
Qed.




(** * Further properties of scraper.py *)

(** ** The dialog *)

Lemma collect_documents_readable (links : list (string * option string)) (documents : dict) :
  (collect_documents (Some <$> links) documents).2 = true.
Proof.
  revert documents. induction links as [|[text href] links IH]; intros documents; cbn; [done|].
  apply IH.
Qed.

Lemma collect_documents_get (name : string) (links : list (string * option string))
    (documents : dict) :
  dict_get name (collect_documents (Some <$> links) documents).1
  = match last_href name links with
    | Some v => Some v
    | None => dict_get name documents
    end.
Proof.
  revert documents. induction links as [|[text href] links IH]; intros documents; cbn; [done|].
  rewrite IH. destruct (last_href name links); [done|].
  destruct (String.eqb_spec name (strip text)) as [->|Hne].
  - apply dict_get_set_eq.
  - by apply dict_get_set_ne.
Qed.

Lemma dict_set_NoDup k v d : NoDup (keys d) -> NoDup (keys (dict_set k v d)).
Proof.
  intros Hnd. destruct (decide (k ∈ keys d)) as [Hin|Hnin].
  - by rewrite keys_dict_set_in.
  - rewrite keys_dict_set_fresh by done. apply NoDup_app. split; [done|].
    split; [|apply NoDup_singleton].
    intros x Hx ->%list_elem_of_singleton. done.
Qed.

Lemma collect_documents_NoDup (links : list doc_link) (documents : dict) :
  NoDup (keys documents) -> NoDup (keys (collect_documents links documents).1).
Proof.
  revert documents. induction links as [|[[text href]|] links IH]; intros documents Hnd; cbn;
    [done| |done].
  apply IH. by apply dict_set_NoDup.
Qed.

(** X1.  The documents of a dialog are keyed by the stripped text of their
    links: when all links can be read, the collection is complete, no name
    occurs twice in it, and each name holds the [href] of the last link
    with that name, so that of two documents with the same name only the
    second is kept. *)
Theorem documents_are_keyed_by_link_text (links : list (string * option string)) :
  let collected := collect_documents (Some <$> links) [] in
  collected.2 = true
  /\ NoDup (keys collected.1)
  /\ forall name, dict_get name collected.1 = last_href name links.
Proof.
  cbn. split; [apply collect_documents_readable|].
  split; [apply collect_documents_NoDup; constructor|].
  intros name. rewrite collect_documents_get. by destruct (last_href name links).
Qed.

(** X2.  A link that cannot be read ends the collection of the documents:
    the documents read before it are kept, those after it are never looked
    at, and the collection is reported as incomplete. *)
Theorem unreadable_link_ends_the_documents
    (before : list (string * option string)) (after : list doc_link) (documents : dict) :
  collect_documents ((Some <$> before) ++ None :: after) documents
  = ((collect_documents (Some <$> before) documents).1, false).
Proof.
  revert documents. induction before as [|[text href] before IH]; intros documents; cbn; [done|].
  apply IH.
Qed.

(** X3.  [extract_modal_data] never raises and changes nothing but the log,
    to which it adds at most one line, a WARNING, and only when the document
    links could not all be read.  The record it returns always has the five
    detail columns; a field whose element is missing holds "N/A" whatever
    the other fields hold, and Documents holds "N/A" exactly when no
    document was collected. *)
Theorem extract_modal_data_total (m : modal) (w : world) :
  exists modal_data logs,
    extract_modal_data m w
    = (Ret modal_data, World (w_file w) (w_io w) (w_seen w) (w_trace w ++ logs))
    /\ keys modal_data = detail_keys
    /\ (logs = [] \/ exists msg, logs = [Log WARNING msg])
    /\ (logs = [] <-> exists links, m_docs m = Some links
                                   /\ (collect_documents links []).2 = true)
    /\ dict_get "Contact Email" modal_data
       = Some (PyStr (match m_email m with Some t => strip t | None => "N/A" end))
    /\ dict_get "Solicitation Ad Date" modal_data
       = Some (PyStr (match m_ad_date m with Some t => strip t | None => "N/A" end))
    /\ dict_get "Deadline for Bid Responses" modal_data
       = Some (PyStr (match m_deadline m with Some t => strip t | None => "N/A" end))
    /\ dict_get "Important Message" modal_data
       = Some (PyStr (match m_message m with Some t => strip t | None => "N/A" end))
    /\ (dict_get "Documents" modal_data = Some (PyStr "N/A")
        <-> match m_docs m with
            | Some links => (collect_documents links []).1 = []
            | None => True
            end).
Proof.
  exists (modal_record m), (modal_logs m).
  split; [apply extract_modal_data_spec|]. split; [reflexivity|].
  unfold modal_logs, modal_record.
  destruct (m_docs m) as [links|]; cbn.
  - destruct (collect_documents links []) as [documents complete] eqn:Hc; cbn.
    assert (Hdocs : dict_get "Documents"
                      (dict_lit [("Documents",
                                  PyStr match documents with [] => "N/A" | _ => dict_str documents end)])
                    = Some (PyStr "N/A") <-> documents = []).
    { destruct documents as [|[k v] documents]; [done|]. cbn. split; [|done].
      intros [=]. }
    destruct complete.
    + split; [by left|]. split; [split; [intros _; exists links; by rewrite Hc|done]|].
      split_and!; try done.
    + split; [right; by eexists|].
      split; [split; [done|intros (? & [= <-] & H); by rewrite Hc in H]|].
      split_and!; done.
  - split; [right; by eexists|]. split; [split; [done|by intros (? & [=] & ?)]|].
    split_and!; done.
Qed.

(** ** One row, once more *)

(** A new row whose detail is had ends as the write of its record does. *)
Lemma process_bid_row_fresh (category_name : string) (r : row) (w : world) :
  7 <= List.length (r_cells r) ->
  dedup_key r ∉ w_seen w ->
  opens_detail r = true ->
  exists m evs,
    r_modal r = Some m
    /\ process_bid_row category_name r w
       = (append_to_excel (full_bid_data category_name r m) >>
          seen_add (dedup_key r) >>
          log INFO ("Successfully scraped and saved Bid ID: " +:+ dedup_key r))
           (World (w_file w) (w_io w) (w_seen w) (w_trace w ++ evs)).
Proof.
  intros Hlen Hnew Hopen.
  assert (Hltb : Nat.ltb (List.length (r_cells r)) 7 = false) by (apply Nat.ltb_ge; lia).
  destruct w as [f ios seen tr]. cbn in Hnew.
  unfold opens_detail in Hopen.
  destruct (c_link (cell_at (r_cells r) 2)) eqn:Hlink; [|done].
  destruct (r_click_ok r) eqn:Hclick; [|done].
  destruct (r_modal r) as [m|] eqn:Hmodal; [|done].
  destruct (r_escape_ok r) eqn:Hesc; [|done].
  exists m, ([ClickTitle (bid_id_of r); WaitModal] ++ modal_logs m ++ [SendEscape]).
  split; [done|].
  unfold process_bid_row. rewrite Hltb, Hlink, Hclick, Hmodal, Hesc.
  unfold bind, seen_mem, log, emit, raise, ret. cbn.
  fold (bid_id_of r). fold (dedup_key r).
  rewrite bool_decide_eq_false_2 by done.
  rewrite extract_modal_data_spec. cbn.
  fold (full_bid_data category_name r m).
  rewrite <- !app_assoc. cbn. reflexivity.
Qed.

(** A new row whose detail cannot be had raises, with file, fates and set
    as they were. *)
Lemma process_bid_row_detail_fault (category_name : string) (r : row) (w : world) :
  7 <= List.length (r_cells r) ->
  dedup_key r ∉ w_seen w ->
  opens_detail r = false ->
  exists e evs,
    process_bid_row category_name r w
    = (Raise e, World (w_file w) (w_io w) (w_seen w) (w_trace w ++ evs)).
Proof.
  intros Hlen Hnew Hopen.
  assert (Hltb : Nat.ltb (List.length (r_cells r)) 7 = false) by (apply Nat.ltb_ge; lia).
  destruct w as [f ios seen tr]. cbn in Hnew.
  unfold process_bid_row. rewrite Hltb.
  unfold bind, seen_mem, log, emit, raise, ret. cbn.
  fold (bid_id_of r). fold (dedup_key r).
  rewrite bool_decide_eq_false_2 by done.
  unfold opens_detail in Hopen.
  destruct (c_link (cell_at (r_cells r) 2)); cbn in *.
  2: { eexists _, []. rewrite app_nil_r. reflexivity. }
  destruct (r_click_ok r); cbn in *.
  2: { eexists _, []. rewrite app_nil_r. reflexivity. }
  destruct (r_modal r) as [m|]; cbn in *.
  2: { eexists _, _. rewrite <- !app_assoc. reflexivity. }
  destruct (r_escape_ok r); [done|].
  rewrite extract_modal_data_spec. cbn.
  eexists _, _. rewrite <- !app_assoc. reflexivity.
Qed.

(** X4.  Whatever makes [process_bid_row] raise, it raises before anything
    is stored or marked: the file and the set of seen identifiers are as
    they were before the row.  Only a row with all its cells and a new key
    can raise. *)
Theorem raising_row_leaves_store_and_set
    (category_name : string) (r : row) (w w' : world) (e : exn) :
  process_bid_row category_name r w = (Raise e, w') ->
  w_file w' = w_file w
  /\ w_seen w' = w_seen w
  /\ 7 <= List.length (r_cells r)
  /\ dedup_key r ∉ w_seen w.
Proof.
  intros Hraise.
  destruct (Nat.ltb (List.length (r_cells r)) 7) eqn:Hltb.
  { unfold process_bid_row in Hraise. by rewrite Hltb in Hraise. }
  apply Nat.ltb_ge in Hltb.
  destruct (decide (dedup_key r ∈ w_seen w)) as [Hin|Hnew].
  { by rewrite (process_bid_row_seen category_name r w Hltb Hin) in Hraise. }
  destruct (opens_detail r) eqn:Hopen.
  - destruct (process_bid_row_fresh category_name r w Hltb Hnew Hopen) as (m & evs & _ & Heq).
    rewrite Heq in Hraise. destruct w as [f ios seen tr]. cbn in *.
    destruct f as [| |wb]; destruct ios as [|[| |] ios]; cbn in Hraise; try done;
      injection Hraise as _ <-; done.
  - destruct (process_bid_row_detail_fault category_name r w Hltb Hnew Hopen)
      as (e' & evs & Heq).
    rewrite Heq in Hraise. injection Hraise as _ <-. done.
Qed.

Lemma raising_row_leaves_store_and_set_witness :
  process_bid_row "Open" (stuck_row (Some "A2")) (World (own_book []) [] {["A1"]} [])
  = (Raise TimeoutException,
     World (own_book []) [] {["A1"]} [ClickTitle (PyStr "A2"); WaitModal])
  /\ w_file (World (own_book []) [] {["A1"]} [ClickTitle (PyStr "A2"); WaitModal])
     = w_file (World (own_book []) [] {["A1"]} []).
Proof.
  assert (H : process_bid_row "Open" (stuck_row (Some "A2")) (World (own_book []) [] {["A1"]} [])
              = (Raise TimeoutException,
                 World (own_book []) [] {["A1"]} [ClickTitle (PyStr "A2"); WaitModal])).
  { unfold process_bid_row.
    cbn [r_cells stuck_row sample_row List.length Nat.ltb Nat.leb].
    unfold bind, seen_mem, log, emit, raise, ret. cbn [w_seen].
    rewrite bool_decide_eq_false_2; [reflexivity|].
    intros Hin%elem_of_singleton. discriminate Hin. }
  split; [exact H|].
  exact (proj1 (raising_row_leaves_store_and_set "Open" _ _ _ _ H)).
Defined.

(** ** The workbook, once more *)

Lemma values_at_index k (d : dict) i :
  index_of k (keys d) = Some i -> values d !! i = dict_get k d.
Proof.
  unfold keys, values. revert i. induction d as [|[k' v'] d IH]; intros i; cbn; [done|].
  destruct (String.eqb_spec k k') as [->|Hne]; [by intros [= <-]|].
  destruct (index_of k d.*1) as [j|] eqn:Hj; [|done].
  intros [= <-]. cbn. by apply IH.
Qed.

Lemma stored_identifiers_append header stored x i :
  index_of "Bid ID" header = Some i ->
  stored_identifiers (Book (Workbook header (stored ++ [x])))
  = stored_identifiers (Book (Workbook header stored))
    ∪ {[py_str (default PyNone (x !! i))]}.
Proof.
  intros Hi. unfold stored_identifiers, column. cbn. rewrite Hi.
  rewrite !fmap_app, list_to_set_app_L. cbn. by rewrite union_empty_r_L.
Qed.

(** X6.  What is appended is found again.  When the record has its Bid ID
    where the file has the Bid ID column and the write goes through, the
    identifiers the file holds afterwards are those it held before together
    with the identifier of the record; and whenever every cell of the Bid ID
    column of the file afterwards is read back as the text of the value
    written to it, [load_processed_bid_ids] returns exactly that set for
    it. *)
Theorem appended_identifier_is_loaded
    (read_back : pyval -> string) (bid_data : dict) (w : world) :
  aligned (w_file w) bid_data ->
  io_ok (w_io w) = true ->
  exists w',
    append_to_excel bid_data w = (Ret tt, w')
    /\ stored_identifiers (w_file w')
       = stored_identifiers (w_file w)
         ∪ {[py_str (default PyNone (dict_get "Bid ID" bid_data))]}
    /\ (reads_back_as_stored read_back (w_file w') ->
        forall ios,
          (load_processed_bid_ids read_back (start (w_file w') ios)).1
          = Ret (stored_identifiers (w_file w)
                 ∪ {[py_str (default PyNone (dict_get "Bid ID" bid_data))]})).
Proof.
  intros Hal Hok.
  assert (Hload : forall f ios,
             reads_back_as_stored read_back f ->
             (load_processed_bid_ids read_back (start f ios)).1
             = Ret (stored_identifiers f)).
  { intros f ios Hback.
    destruct (load_processed_bid_ids_loaded read_back (start f ios)) as [line ->].
    cbn [fst start w_file]. by rewrite (loaded_ids_as_stored read_back f Hback). }
  assert (Hgoal : forall f',
             stored_identifiers f'
             = stored_identifiers (w_file w)
               ∪ {[py_str (default PyNone (dict_get "Bid ID" bid_data))]} ->
             stored_identifiers f'
             = stored_identifiers (w_file w)
               ∪ {[py_str (default PyNone (dict_get "Bid ID" bid_data))]}
             /\ (reads_back_as_stored read_back f' ->
                 forall ios,
                   (load_processed_bid_ids read_back (start f' ios)).1
                   = Ret (stored_identifiers (w_file w)
                          ∪ {[py_str (default PyNone (dict_get "Bid ID" bid_data))]}))).
  { intros f' Heq. split; [exact Heq|]. intros Hback ios.
    rewrite (Hload f' ios Hback). by rewrite Heq. }
  destruct (w_file w) as [| |wb] eqn:Hfile; [|done|].
  - rewrite (append_to_excel_created bid_data w Hfile Hok). eexists. split; [done|].
    cbn [w_file]. apply Hgoal. cbn in Hal |- *.
    destruct (index_of_Some _ _ Hal) as [i Hi].
    unfold column. cbn. rewrite Hi. cbn.
    rewrite (values_at_index _ _ _ Hi). set_solver.
  - destruct Hal as (i & Hi & Hd).
    rewrite (append_to_excel_written bid_data wb w Hfile Hok). eexists. split; [done|].
    cbn [w_file]. apply Hgoal. destruct wb as [header stored]. cbn in Hi.
    cbn [wb_header wb_rows].
    rewrite (stored_identifiers_append header stored _ i Hi).
    by rewrite (values_at_index _ _ _ Hd).
Qed.

Lemma appended_identifier_is_loaded_witness :
  aligned Absent (full_bid_data "Open" (sample_row (Some "A1")) sample_modal)
  /\ io_ok [] = true
  /\ exists w',
       append_to_excel (full_bid_data "Open" (sample_row (Some "A1")) sample_modal)
         (World Absent [] ∅ []) = (Ret tt, w')
       /\ stored_identifiers (w_file w') = ∅ ∪ {["A1"]}
       /\ (load_processed_bid_ids pandas_str (start (w_file w') [])).1 = Ret (∅ ∪ {["A1"]}).
Proof.
  assert (H1 : aligned (w_file (World Absent [] ∅ []))
                 (full_bid_data "Open" (sample_row (Some "A1")) sample_modal))
    by (unfold aligned; cbn [w_file]; by_compute).
  split; [exact H1|]. split; [reflexivity|].
  destruct (appended_identifier_is_loaded pandas_str
              (full_bid_data "Open" (sample_row (Some "A1")) sample_modal)
              (World Absent [] ∅ []) H1 eq_refl)
    as (w' & Heq & Hids & Hload).
  exists w'. split; [exact Heq|]. split; [exact Hids|].
  apply Hload.
  rewrite (append_to_excel_created _ (World Absent [] ∅ []) eq_refl eq_refl) in Heq.
  injection Heq as <-. cbn [w_file].
  intros c Hc.
  change (c ∈ [PyStr "A1"]) in Hc. apply list_elem_of_singleton in Hc as ->. reflexivity.
Defined.

(** ** The pager and the categories *)

(** X7.  [navigate_to_next_page] never raises and touches nothing but the
    trace: it looks the button up once; it returns [True] exactly when the
    button is there, its class has neither marker of a disabled button and
    the click goes through, and then it has clicked exactly once.  In every
    other case it returns [False] without a click: a class attribute that
    is missing altogether and a click that fails are logged as errors like
    a missing button, a disabled button is not logged. *)
Theorem navigate_to_next_page_total (p : page) (w : world) :
  exists evs,
    navigate_to_next_page p w
    = (Ret (next_clicked p),
       World (w_file w) (w_io w) (w_seen w) (w_trace w ++ FindNext :: evs))
    /\ (next_clicked p = true <-> evs = [ClickNext])
    /\ (next_clicked p = false ->
        (ClickNext ∉ evs)
        /\ match p_next p with
           | None =>
               evs = [Log ERROR ("Pagination failed or reached the end: " +:+
                                 exn_str NoSuchElementException)]
           | Some (NextButton None _) =>
               evs = [Log ERROR ("Pagination failed or reached the end: " +:+
                                 exn_str TypeError)]
           | Some (NextButton (Some cls) ok) =>
               if contains "disabled" cls || contains "ui-jqgrid-disablePointerEvents" cls
               then evs = []
               else evs = [Log ERROR ("Pagination failed or reached the end: " +:+
                                      exn_str WebDriverException)]
           end).
Proof.
  destruct w as [f ios seen tr]. unfold navigate_to_next_page, next_clicked.
  unfold catch, bind, log, emit, raise, ret.
  destruct (p_next p) as [[[cls|] [|]]|]; cbn.
  1,2: destruct (contains "disabled" cls || contains "ui-jqgrid-disablePointerEvents" cls);
         cbn.
  all: eexists; (split; [rewrite <- ?app_assoc; reflexivity|]).
  all: split; [split; done|]; try done.
  all: intros _; split; [|done].
  all: rewrite ?not_elem_of_cons; repeat split; try done; apply not_elem_of_nil.
Qed.

(** X8.  A category whose tab cannot be found, or whose table shows no row
    in time, is given up with one ERROR line: the step of the category
    returns, nothing is looked up in the table, no row is clicked, and the
    file, the fates of the writes and the set are as before, so that the
    categories after it start from the same state. *)
Theorem category_without_table_is_given_up
    (s : site) (category_name tab_id : string) (w : world) :
  without_table s tab_id = true ->
  category_step s (category_name, tab_id) w
  = (Ret tt,
     World (w_file w) (w_io w) (w_seen w)
       (w_trace w
        ++ [Log INFO ("--- Processing category: " +:+ category_name +:+ " ---")]
        ++ match site_tab tab_id s with
           | Some _ => [ClickTab tab_id; WaitRows]
           | None => []
           end
        ++ [Log ERROR ("Could not process category '" +:+ category_name +:+ "': " +:+
                       exn_str TimeoutException)])).
Proof.
  intros Hno. destruct w as [f ios seen tr]. unfold without_table in Hno.
  unfold category_step.
  destruct (site_tab tab_id s) as [[|p pages]|]; cbn.
  - unfold catch, bind, log, emit, raise, ret. cbn. rewrite <- !app_assoc. reflexivity.
  - destruct (p_rows p) eqn:Hp; [|done].
    unfold catch, bind, log, emit, raise, ret. cbn. rewrite Hp. cbn.
    rewrite <- !app_assoc. reflexivity.
  - unfold catch, bind, log, emit, raise, ret. cbn. rewrite <- !app_assoc. reflexivity.
Qed.

Lemma category_without_table_is_given_up_witness :
  without_table two_page_site "btnClosed" = true
  /\ category_step two_page_site ("Recently Closed", "btnClosed") (World Absent [] ∅ [])
     = (Ret tt,
        World Absent [] ∅
          [Log INFO "--- Processing category: Recently Closed ---";
           Log ERROR "Could not process category 'Recently Closed': Message: timeout"]).
Proof.
  split; [reflexivity|].
  exact (category_without_table_is_given_up two_page_site "Recently Closed" "btnClosed"
           (World Absent [] ∅ []) eq_refl).
Defined.

(** ** What a run adds to the file *)

Lemma extend_nil f : extend f [] = f.
Proof. destruct f as [| |[header stored]]; cbn; by rewrite ?app_nil_r. Qed.

Lemma extend_app f a b : extend (extend f a) b = extend f (a ++ b).
Proof.
  destruct f as [| |[header stored]]; cbn; [|done|by rewrite app_assoc].
  destruct a as [|x a]; cbn; [done|]. done.
Qed.

Lemma row_key_stored_record category_name r :
  attempted r = true -> row_key (stored_record (category_name, r)) = dedup_key r.
Proof.
  unfold attempted. intros [_ Hopen]%andb_prop.
  destruct (opens_detail_modal r Hopen) as [m Hm].
  unfold stored_record. cbn. by rewrite Hm.
Qed.

(** What one row adds: nothing, or its record; its key is then new and
    joins the set. *)
Lemma row_effect_written category_name r s :
  exists written,
    (written = [] \/ written = [(category_name, r)])
    /\ (row_effect category_name r s).1.1 = extend s.1.1 (stored_record <$> written)
    /\ s.2 ⊆ (row_effect category_name r s).2
    /\ forall v, v ∈ written ->
         attempted v.2 = true
         /\ (dedup_key v.2 ∉ s.2)
         /\ dedup_key v.2 ∈ (row_effect category_name r s).2.
Proof.
  assert (Hskip : exists written : list (string * row),
             (written = [] \/ written = [(category_name, r)])
             /\ s.1.1 = extend s.1.1 (stored_record <$> written)
             /\ s.2 ⊆ s.2
             /\ forall v, v ∈ written ->
                  attempted v.2 = true /\ (dedup_key v.2 ∉ s.2) /\ dedup_key v.2 ∈ s.2).
  { exists []. split; [by left|]. split; [by rewrite extend_nil|]. split; [done|].
    by intros v ?%elem_of_nil. }
  unfold row_effect, attempted.
  destruct (Nat.ltb (List.length (r_cells r)) 7) eqn:Hltb; [done|].
  destruct (bool_decide (dedup_key r ∈ s.2)) eqn:Hseen; [done|].
  apply bool_decide_eq_false in Hseen.
  destruct (opens_detail r) eqn:Hopen; [|done].
  destruct (r_modal r) as [m|] eqn:Hm; [|done].
  destruct s as [[f ios] seen]. cbn in Hseen. unfold store_effect.
  assert (Hrec : stored_record (category_name, r) = values (full_bid_data category_name r m)).
  { unfold stored_record. cbn. by rewrite Hm. }
  assert (Hnone : forall (f' : file) (ios' : list io) (seen' : gset string),
             f' = f -> seen ⊆ seen' ->
             exists written : list (string * row),
               (written = [] \/ written = [(category_name, r)])
               /\ (f', ios', seen').1.1 = extend (f, ios, seen).1.1 (stored_record <$> written)
               /\ (f, ios, seen).2 ⊆ (f', ios', seen').2
               /\ forall v, v ∈ written ->
                    attempted v.2 = true /\ (dedup_key v.2 ∉ (f, ios, seen).2)
                    /\ dedup_key v.2 ∈ (f', ios', seen').2).
  { intros f' ios' seen' -> Hsub. exists []. split; [by left|].
    split; [cbn; by rewrite extend_nil|]. split; [done|]. by intros v ?%elem_of_nil. }
  assert (Hone : forall (f' : file) (ios' : list io),
             f' = extend f [values (full_bid_data category_name r m)] ->
             exists written : list (string * row),
               (written = [] \/ written = [(category_name, r)])
               /\ (f', ios', {[dedup_key r]} ∪ seen).1.1
                  = extend (f, ios, seen).1.1 (stored_record <$> written)
               /\ (f, ios, seen).2 ⊆ (f', ios', {[dedup_key r]} ∪ seen).2
               /\ forall v, v ∈ written ->
                    attempted v.2 = true /\ (dedup_key v.2 ∉ (f, ios, seen).2)
                    /\ dedup_key v.2 ∈ (f', ios', {[dedup_key r]} ∪ seen).2).
  { intros f' ios' ->. exists [(category_name, r)]. split; [by right|].
    split; [cbn; by rewrite Hrec|]. split; [cbn; set_solver|].
    intros v ->%list_elem_of_singleton. cbn. unfold attempted. rewrite Hltb, Hopen.
    split; [done|]. split; [done|]. set_solver. }
  destruct f as [| |wb]; [| |]; destruct (io_ok ios).
  - by apply Hone.
  - by apply Hnone.
  - apply Hnone; [done|set_solver].
  - apply Hnone; [done|set_solver].
  - by apply Hone.
  - apply Hnone; [done|set_solver].
Qed.

(** What the rows of a run add, in the order they are stepped through. *)
Lemma visits_effect_written visits s :
  exists written,
    written `sublist_of` visits
    /\ (visits_effect visits s).1.1 = extend s.1.1 (stored_record <$> written)
    /\ s.2 ⊆ (visits_effect visits s).2
    /\ NoDup ((fun v => dedup_key v.2) <$> written)
    /\ forall v, v ∈ written ->
         attempted v.2 = true
         /\ (dedup_key v.2 ∉ s.2)
         /\ dedup_key v.2 ∈ (visits_effect visits s).2.
Proof.
  unfold visits_effect. revert s. induction visits as [|v visits IH]; intros s; cbn [foldl].
  - exists []. split; [done|]. split; [by rewrite extend_nil|]. split; [done|].
    split; [constructor|]. by intros v ?%elem_of_nil.
  - destruct (row_effect_written v.1 v.2 s) as (w1 & Hw1 & Hf1 & Hs1 & Hk1).
    destruct (IH (row_effect v.1 v.2 s)) as (w2 & Hw2 & Hf2 & Hs2 & Hnd2 & Hk2).
    exists (w1 ++ w2). split_and!.
    + change (v :: visits) with ([v] ++ visits). apply sublist_app; [|done].
      destruct Hw1 as [->| ->]; [apply sublist_nil_l|]. by destruct v.
    + rewrite Hf2, Hf1, extend_app. by rewrite fmap_app.
    + set_solver.
    + rewrite fmap_app. apply NoDup_app. split_and!; [|
        |done].
      * destruct Hw1 as [->| ->]; [constructor|apply NoDup_singleton].
      * intros k (v1 & -> & Hv1)%list_elem_of_fmap (v2 & Hk & Hv2)%list_elem_of_fmap.
        destruct (Hk1 v1 Hv1) as (_ & _ & Hin). destruct (Hk2 v2 Hv2) as (_ & Hnin & _).
        rewrite Hk in Hin. done.
    + intros v' [Hv'|Hv']%elem_of_app.
      * destruct (Hk1 v' Hv') as (Ha & Hb & Hc). split_and!; [done|done|]. by apply Hs2.
      * destruct (Hk2 v' Hv') as (Ha & Hb & Hc). split_and!; [done| |done].
        intros Hin. apply Hb. by apply Hs1.
Qed.

(** X9.  A run only appends.  Whatever the data set, the file and the
    fates of the writes, the file a run leaves is the file it found with
    records added below its last row: the header and the rows already
    stored are untouched, a file that is no workbook stays as it is, and a
    missing file stays missing unless a record is written.  The records
    added are those of some of the rows the run stepped through, each of
    which got as far as the write, in the order the run stepped through
    them (category by category, page by page, row by row). *)
Theorem run_only_appends
    (read_back : pyval -> string) (s : site) (f : file) (ios : list io) :
  exists written,
    written `sublist_of` site_visits s
    /\ Forall (fun v => attempted v.2 = true) written
    /\ w_file (run read_back s f ios) = extend f (stored_record <$> written).
Proof.
  destruct (visits_effect_written (site_visits s) (f, ios, loaded_ids read_back f))
    as (written & Hsub & Hfile & _ & _ & Hk).
  exists written. split; [done|]. split.
  - apply Forall_forall. intros v Hv. by destruct (Hk v Hv).
  - rewrite <- run_effect in Hfile. exact Hfile.
Qed.

(** X10.  Within one run no identifier is stored twice, and none is stored
    that the run loaded from the file at its start: the rows a run adds to
    the file have pairwise different keys (the text of their Bid ID cell),
    none of which is in the set the run loaded. *)
Theorem run_stores_each_key_once
    (read_back : pyval -> string) (s : site) (f : file) (ios : list io) :
  exists added,
    w_file (run read_back s f ios) = extend f added
    /\ NoDup (row_key <$> added)
    /\ forall stored, stored ∈ added -> row_key stored ∉ loaded_ids read_back f.
Proof.
  destruct (visits_effect_written (site_visits s) (f, ios, loaded_ids read_back f))
    as (written & _ & Hfile & _ & Hnd & Hk).
  assert (Hkeys : row_key <$> (stored_record <$> written)
                  = (fun v => dedup_key v.2) <$> written).
  { rewrite <- list_fmap_compose. apply Forall_fmap_ext.
    apply Forall_forall. intros [c r] Hv. cbn.
    apply row_key_stored_record. by destruct (Hk _ Hv). }
  exists (stored_record <$> written). split_and!.
  - rewrite <- run_effect in Hfile. exact Hfile.
  - by rewrite Hkeys.
  - intros stored (v & -> & Hv)%list_elem_of_fmap.
    destruct (Hk v Hv) as (Hatt & Hnew & _). destruct v as [c r].
    rewrite row_key_stored_record by done. exact Hnew.
Qed.

(** In a run without failed writes the file gives back no identifier that
    is not in the set. *)
Lemma row_effect_loaded_in_set read_back category_name r s :
  (attempted r = true -> read_back (bid_id_of r) = dedup_key r) ->
  settled read_back s ->
  loaded_ids read_back s.1.1 ⊆ s.2 ->
  loaded_ids read_back (row_effect category_name r s).1.1 ⊆ (row_effect category_name r s).2.
Proof.
  intros Hback (Hio & Hown & _) Hsub. destruct s as [[f ios] seen]. cbn in Hio, Hown, Hsub.
  unfold attempted in *. unfold row_effect. cbn [fst snd].
  destruct (Nat.ltb (List.length (r_cells r)) 7); [done|].
  destruct (bool_decide (dedup_key r ∈ seen)); [done|].
  destruct (opens_detail r) eqn:Hopen; [|done].
  destruct (opens_detail_modal r Hopen) as [m Hm]. rewrite Hm.
  destruct (all_ok_io_ok ios Hio) as [Hok Htail].
  specialize (Hback eq_refl).
  unfold store_effect. rewrite Hok. destruct f as [| |wb]; [|done|].
  - cbn [fst snd]. rewrite loaded_ids_created, Hback. set_solver.
  - destruct wb as [header stored]. cbn in Hown. cbn [fst snd wb_header wb_rows].
    rewrite (loaded_ids_append read_back header stored _ 1 Hown).
    change (default PyNone (values (full_bid_data category_name r m) !! 1))
      with (bid_id_of r).
    rewrite Hback. set_solver.
Qed.

Lemma visits_effect_loaded_in_set read_back visits s :
  (forall v, v ∈ visits -> attempted v.2 = true -> read_back (bid_id_of v.2) = dedup_key v.2) ->
  settled read_back s ->
  loaded_ids read_back s.1.1 ⊆ s.2 ->
  loaded_ids read_back (visits_effect visits s).1.1 ⊆ (visits_effect visits s).2.
Proof.
  unfold visits_effect. revert s.
  induction visits as [|v visits IH]; intros s Hback Hset Hsub; cbn [foldl]; [done|].
  destruct (row_effect_settled read_back v.1 v.2 s) as (Hset1 & _ & _);
    [apply Hback; left | done |].
  apply IH; [intros v' Hv'; apply Hback; by right | done |].
  apply row_effect_loaded_in_set; [apply Hback; left | done | done].
Qed.

Lemma reads_back_as_stored_py_str (f : file) : reads_back_as_stored py_str f.
Proof. by destruct f. Qed.

(** X11.  The set of seen identifiers is what the file holds.  When a run
    starts from a missing file or from a workbook whose second column is
    headed Bid ID, the set it loads at its start is the set of the
    identifiers that file holds, and no write fails, then the set the run
    ends with is exactly the set of the identifiers held by the file the run
    leaves; and whenever every cell of that file's Bid ID column is read
    back as the text of the value written to it, it is the set
    [load_processed_bid_ids] returns for that file. *)
Theorem seen_set_is_what_the_file_holds
    (read_back : pyval -> string) (s : site) (f : file) (ios : list io) :
  own_store f ->
  all_ok ios ->
  loaded_ids read_back f = stored_identifiers f ->
  w_seen (run read_back s f ios) = stored_identifiers (w_file (run read_back s f ios))
  /\ (reads_back_as_stored read_back (w_file (run read_back s f ios)) ->
      forall ios',
        (load_processed_bid_ids read_back (start (w_file (run read_back s f ios)) ios')).1
        = Ret (w_seen (run read_back s f ios))).
Proof.
  intros Hown Hio Hloaded.
  assert (Hpy : forall f', loaded_ids py_str f' = stored_identifiers f').
  { intros f'. apply loaded_ids_as_stored, reads_back_as_stored_py_str. }
  assert (Hback : forall v, v ∈ site_visits s -> attempted v.2 = true ->
                            py_str (bid_id_of v.2) = dedup_key v.2) by done.
  assert (Hset : settled py_str (f, ios, loaded_ids py_str f)).
  { split; [done|]. split; done. }
  destruct (visits_effect_settled py_str (site_visits s) _ Hback Hset) as ((_ & _ & H1) & _).
  pose proof (visits_effect_loaded_in_set py_str (site_visits s) _ Hback Hset
                (reflexivity _)) as H2.
  rewrite (Hpy f), <- Hloaded, <- run_effect in H1, H2. cbn in H1, H2.
  rewrite Hpy in H1, H2.
  assert (Heq : w_seen (run read_back s f ios)
                = stored_identifiers (w_file (run read_back s f ios))).
  { apply set_eq. intros k. split; [apply H1 | apply H2]. }
  split; [exact Heq|]. intros Hrb ios'.
  destruct (load_processed_bid_ids_loaded read_back
              (start (w_file (run read_back s f ios)) ios')) as [line ->].
  cbn [fst start w_file]. by rewrite (loaded_ids_as_stored _ _ Hrb), Heq.
Qed.

Lemma seen_set_is_what_the_file_holds_witness :
  own_store Absent
  /\ all_ok []
  /\ loaded_ids pandas_str Absent = stored_identifiers Absent
  /\ w_seen (run pandas_str two_page_site Absent [])
     = stored_identifiers (w_file (run pandas_str two_page_site Absent [])).
Proof.
  assert (H1 : own_store Absent) by exact I.
  assert (H2 : all_ok []) by constructor.
  assert (H3 : loaded_ids pandas_str Absent = stored_identifiers Absent) by reflexivity.
  split; [exact H1|]. split; [exact H2|]. split; [exact H3|].
  exact (proj1 (seen_set_is_what_the_file_holds pandas_str two_page_site Absent []
                  H1 H2 H3)).
Defined.

(** * Further properties of end.py *)

Lemma end_extract_bid_details_spec (m : End.modal) (w : End.world) :
  exists printed,
    End.extract_bid_details m w
    = (Ret (end_details m), End.World (End.all_bids_list w) (End.trace w ++ printed))
    /\ (if end_complete m then printed = [] else exists msg, printed = [End.Print msg])
    /\ Forall (fun e => end_is_export e = false) printed.
Proof.
  destruct w as [bids tr]. unfold End.extract_bid_details, end_details, end_complete.
  fold (end_fields m).
  destruct (End.header_visible m); cbn [negb andb].
  2: { eexists. split; [reflexivity|]. split; [by eexists|by repeat constructor]. }
  unfold end_fields.
  destruct (End.header m), (End.solicitation m), (End.deadline m), (End.contact_name m),
    (End.contact_email m); cbn.
  all: first [ exists []; split; [rewrite app_nil_r; reflexivity|split; [done|constructor]]
             | eexists [_]; split; [reflexivity|split; [by eexists|by repeat constructor]] ].
Qed.


Lemma end_dict_update_details (status : string) (r : End.row) (m : End.modal) :
  End.dict_update (end_table_fields status r) (end_details m)
  = end_table_fields status r ++ end_details m.
Proof.
  unfold end_details, end_fields.
  destruct (End.header_visible m); [|reflexivity].
  destruct (End.header m), (End.solicitation m), (End.deadline m), (End.contact_name m),
    (End.contact_email m); reflexivity.
Qed.

(** X13.  The row step of end.py never raises and adds at most one record
    to the list, after the records already there.  It adds one exactly when
    the row has its six cells, the click on the row goes through and so does
    the click on the close button, if there is one; that the pop-up did
    not show up or lacks fields does not keep the row from being recorded.
    The record holds the seven table fields, the status last, in the order
    and with the values read from the row, followed by the details that
    could be read: no detail replaces a table field. *)
Theorem end_row_step_records (status : string) (r : End.row) (w : End.world) :
  exists w' evs,
    End.row_step status r w = (Ret tt, w')
    /\ End.trace w' = End.trace w ++ evs
    /\ End.all_bids_list w'
       = End.all_bids_list w
         ++ (if end_recorded r
             then [end_table_fields status r ++ end_details (End.popup r)]
             else []).
Proof.
  destruct w as [bids tr]. unfold End.row_step, End.process_row, end_recorded.
  destruct (Nat.ltb (List.length (End.cols r)) 6) eqn:Hltb; cbn [negb andb].
  { exists (End.World bids tr), []. rewrite !app_nil_r. done. }
  fold (end_table_fields status r).
  destruct (End.click_ok r); cbn [andb].
  2: { unfold End.click_close, catch, bind, End.print, End.emit, raise, ret. cbn.
       destruct (End.close_btn r) as [|[|] ?]; cbn; eexists _, _;
         (split; [reflexivity|]);
         (split; [cbn; rewrite <- ?app_assoc; reflexivity | cbn; by rewrite ?app_nil_r]). }
  destruct (end_extract_bid_details_spec (End.popup r)
              (End.World bids (tr ++ [End.ClickRow (End.col_at (End.cols r) 0)])))
    as (printed & Heq & _ & _).
  unfold catch at 1. unfold bind at 1. unfold End.emit at 1. cbn [End.all_bids_list End.trace].
  unfold bind at 1. rewrite Heq. cbn [End.all_bids_list End.trace].
  rewrite end_dict_update_details.
  unfold End.click_close, End.append_bid, catch, bind, End.print, End.emit, raise, ret.
  destruct (End.close_btn r) as [|[|] ?]; cbn; eexists _, _;
    (split; [reflexivity|]);
         (split; [cbn; rewrite <- ?app_assoc; reflexivity | cbn; by rewrite ?app_nil_r]).
Qed.

Lemma end_row_step_quiet (status : string) (r : End.row) (w : End.world) :
  exists w' evs,
    End.row_step status r w = (Ret tt, w')
    /\ End.trace w' = End.trace w ++ evs
    /\ Forall (fun e => end_is_export e = false) evs
    /\ End.all_bids_list w'
       = End.all_bids_list w ++ (if end_recorded r then [end_record status r] else []).
Proof.
  destruct w as [bids tr]. unfold End.row_step, End.process_row, end_recorded, end_record.
  destruct (Nat.ltb (List.length (End.cols r)) 6) eqn:Hltb; cbn [negb andb].
  { exists (End.World bids tr), []. rewrite !app_nil_r. done. }
  fold (end_table_fields status r).
  destruct (End.click_ok r); cbn [andb].
  2: { unfold End.click_close, catch, bind, End.print, End.emit, raise, ret. cbn.
       destruct (End.close_btn r) as [|[|] ?]; cbn; eexists _, _;
         (split; [reflexivity|]);
         (split; [cbn; rewrite <- ?app_assoc; reflexivity|]);
         (split; [repeat constructor | cbn; by rewrite ?app_nil_r]). }
  destruct (end_extract_bid_details_spec (End.popup r)
              (End.World bids (tr ++ [End.ClickRow (End.col_at (End.cols r) 0)])))
    as (printed & Heq & _ & Hq).
  unfold catch at 1. unfold bind at 1. unfold End.emit at 1. cbn [End.all_bids_list End.trace].
  unfold bind at 1. rewrite Heq. cbn [End.all_bids_list End.trace].
  rewrite end_dict_update_details.
  unfold End.click_close, End.append_bid, catch, bind, End.print, End.emit, raise, ret.
  destruct (End.close_btn r) as [|[|] ?]; cbn; eexists _, _;
    (split; [reflexivity|]);
    (split; [cbn; rewrite <- ?app_assoc; reflexivity|]);
    (split; [|cbn; by rewrite ?app_nil_r]).
  all: repeat (apply Forall_app; split); try done; by repeat constructor.
Qed.

Lemma end_rows_loop_records (status : string) (rows : list End.row) (w : End.world) :
  exists w' evs,
    End.rows_loop status rows w = (Ret tt, w')
    /\ End.trace w' = End.trace w ++ evs
    /\ Forall (fun e => end_is_export e = false) evs
    /\ End.all_bids_list w'
       = End.all_bids_list w ++ (end_record status <$> List.filter end_recorded rows).
Proof.
  revert w. induction rows as [|r rows IH]; intros w.
  - exists w, []. rewrite !app_nil_r. done.
  - destruct (end_row_step_quiet status r w) as (w1 & evs1 & Hstep & Ht1 & Hq1 & Hb1).
    destruct (IH w1) as (w2 & evs2 & Hloop & Ht2 & Hq2 & Hb2).
    exists w2, (evs1 ++ evs2). cbn [End.rows_loop]. unfold bind at 1. rewrite Hstep, Hloop.
    split; [done|]. split; [by rewrite Ht2, Ht1, app_assoc|].
    split; [by apply Forall_app|].
    rewrite Hb2, Hb1. cbn [List.filter]. destruct (end_recorded r); cbn.
    + by rewrite <- app_assoc.
    + by rewrite app_nil_r.
Qed.

Lemma end_pages_loop_records (status : string) (pages : list End.page) (w : End.world) :
  exists o w' evs,
    End.pages_loop status pages w = (o, w')
    /\ (o = Ret tt \/ o = Raise WebDriverException)
    /\ End.trace w' = End.trace w ++ evs
    /\ Forall (fun e => end_is_export e = false) evs
    /\ End.all_bids_list w'
       = End.all_bids_list w
         ++ (end_record status <$> List.filter end_recorded (end_visited_rows pages)).
Proof.
  revert w. induction pages as [|p pages IH]; intros [bids tr].
  - eexists _, _, [_]. split; [reflexivity|]. cbn. rewrite app_nil_r.
    split; [by left|]. split; [reflexivity|]. split; [by repeat constructor|done].
  - cbn [End.pages_loop end_visited_rows].
    destruct (End.table_present p).
    2: { eexists _, _, [_]. split; [reflexivity|]. cbn. rewrite app_nil_r.
         split; [by left|]. split; [reflexivity|]. split; [by repeat constructor|done]. }
    destruct (end_rows_loop_records status (End.page_rows p)
                (End.World bids (tr ++ [End.Print ("Found " +:+
                    pretty (List.length (End.page_rows p)) +:+ " bids on the current page.")])))
      as (w1 & evs1 & Hloop & Ht1 & Hq1 & Hb1).
    unfold bind at 1. unfold catch_if at 1. unfold bind at 1. unfold ret at 1.
    unfold bind at 1. unfold End.print at 1. unfold End.emit at 1.
    cbn [End.all_bids_list End.trace negb].
    unfold ret at 1. cbv beta iota. cbn [negb]. unfold bind at 1. rewrite Hloop.
    destruct w1 as [bids1 tr1]. cbn in Ht1, Hb1. subst tr1 bids1.
    rewrite List.filter_app, fmap_app.
    destruct (End.next_link p) as [[|]|].
    + destruct (IH (End.World (bids ++ (end_record status <$> List.filter end_recorded (End.page_rows p)))
                      (((tr ++ [End.Print ("Found " +:+
                          pretty (List.length (End.page_rows p)) +:+ " bids on the current page.")])
                        ++ evs1) ++ [End.Print "Navigating to the next page..."])))
        as (o & w2 & evs2 & Hrest & Ho & Ht2 & Hq2 & Hb2).
      eexists o, w2, _. unfold bind at 1, catch_if at 1, bind at 1, ret at 1.
      cbv beta iota.
      unfold bind at 1, End.print at 1, End.emit at 1. cbn [End.all_bids_list End.trace].
      unfold ret at 1. cbv beta iota. rewrite Hrest. split; [reflexivity|]. split; [done|].
      cbn in Ht2, Hb2. split; [rewrite Ht2, <- !app_assoc; reflexivity|].
      split; [|by rewrite Hb2, <- app_assoc].
      repeat (apply Forall_app; split); try done; by repeat constructor.
    + eexists _, _, _. split; [reflexivity|].
      split; [by right|]. split; [cbn; rewrite <- !app_assoc; reflexivity|].
      split; [|cbn; by rewrite app_nil_r].
      repeat (apply Forall_app; split); try done; by repeat constructor.
    + eexists _, _, _. split; [reflexivity|].
      split; [by left|]. split; [cbn; rewrite <- !app_assoc; reflexivity|].
      split; [|cbn; by rewrite app_nil_r].
      repeat (apply Forall_app; split); try done; by repeat constructor.
Qed.

Lemma end_process_bids_for_status_records (s : End.site) (status : string) (w : End.world) :
  exists o w' evs,
    End.process_bids_for_status s status w = (o, w')
    /\ (o = Ret tt \/ o = Raise WebDriverException)
    /\ End.trace w' = End.trace w ++ evs
    /\ Forall (fun e => end_is_export e = false) evs
    /\ End.all_bids_list w'
       = End.all_bids_list w
         ++ (end_record status <$> List.filter end_recorded (end_status_rows s status)).
Proof.
  destruct w as [bids tr]. unfold End.process_bids_for_status, end_status_rows.
  destruct (End.find_tab status s) as [[[|] pages]|]; cbn [End.tab_click_ok End.tab_pages].
  - destruct (end_pages_loop_records status pages
                (End.World bids (tr ++ [End.Print
                   (String "010" "--- Processing bids for status: " +:+ status +:+ " ---")])))
      as (o & w' & evs & Hloop & Ho & Ht & Hq & Hb).
    exists o, w', (End.Print (String "010" "--- Processing bids for status: " +:+ status +:+ " ---")
                   :: evs).
    unfold bind, catch_if, End.print, End.emit, raise, ret. cbv beta iota.
    cbn [End.all_bids_list End.trace End.tab_pages]. rewrite Hloop.
    split; [reflexivity|]. split; [done|]. cbn in Ht, Hb.
    split; [by rewrite Ht, <- app_assoc|]. split; [|done].
    constructor; [done|done].
  - eexists _, _, [_]. split; [reflexivity|]. split; [by right|].
    split; [reflexivity|]. split; [by repeat constructor|cbn; by rewrite app_nil_r].
  - eexists _, _, [_; _]. split; [reflexivity|]. split; [by left|].
    split; [cbn; by rewrite <- app_assoc|].
    split; [by repeat constructor|cbn; by rewrite app_nil_r].
Qed.

(** X14.  What [process_bids_for_status] collects.  Whether it returns or
    ends by the exception of a failed click, the list afterwards is the list
    before followed by one record for each row it stepped through that was
    recorded, in the order of the pages and of the rows on them; the earlier
    records are neither dropped nor reordered, and every record it adds
    carries the status it was collected under. *)
Theorem end_status_collects_in_order (s : End.site) (status : string) (w : End.world) :
  exists o w' recs,
    End.process_bids_for_status s status w = (o, w')
    /\ (o = Ret tt \/ o = Raise WebDriverException)
    /\ End.all_bids_list w' = End.all_bids_list w ++ recs
    /\ recs = end_record status <$> List.filter end_recorded (end_status_rows s status)
    /\ Forall (fun d => ("Status", End.VStr status) ∈ d) recs.
Proof.
  destruct (end_process_bids_for_status_records s status w)
    as (o & w' & evs & Heq & Ho & _ & _ & Hb).
  eexists o, w', _. split; [exact Heq|]. split; [exact Ho|]. split; [exact Hb|].
  split; [reflexivity|]. apply Forall_fmap, Forall_forall. intros r _. cbn.
  unfold end_record, end_table_fields. cbn. do 6 right. left.
Qed.

(** X15.  Only the timeout of the wait for a tab is handled.  When no tab
    is found for a status, the function prints that it could not find it and
    returns with the list as it was.  When the tab is found and the click on
    it fails, the exception leaves the function, again with the list as it
    was. *)
Theorem end_tab_faults (s : End.site) (status : string) (w : End.world) :
  match End.find_tab status s with
  | None =>
      End.process_bids_for_status s status w
      = (Ret tt,
         End.World (End.all_bids_list w)
           (End.trace w ++
            [End.Print (String "010" "--- Processing bids for status: " +:+ status +:+ " ---");
             End.Print ("Could not find or click the '" +:+ status +:+ "' tab.")]))
  | Some t =>
      if End.tab_click_ok t then True
      else
        End.process_bids_for_status s status w
        = (Raise WebDriverException,
           End.World (End.all_bids_list w)
             (End.trace w ++
              [End.Print (String "010" "--- Processing bids for status: " +:+ status +:+ " ---")]))
  end.
Proof.
  destruct w as [bids tr]. unfold End.process_bids_for_status.
  destruct (End.find_tab status s) as [[[|] pages]|]; cbn [End.tab_click_ok]; [done| |].
  - reflexivity.
  - unfold bind, catch_if, End.print, End.emit, raise, ret. cbn.
    by rewrite <- app_assoc.
Qed.

Lemma end_statuses_loop_quiet (s : End.site) (statuses : list string) (w : End.world) :
  exists o w' evs,
    End.statuses_loop s statuses w = (o, w')
    /\ End.trace w' = End.trace w ++ evs
    /\ Forall (fun e => end_is_export e = false) evs
    /\ End.all_bids_list w `prefix_of` End.all_bids_list w'.
Proof.
  revert w. induction statuses as [|status statuses IH]; intros w.
  - exists (Ret tt), w, []. rewrite app_nil_r. done.
  - destruct (end_process_bids_for_status_records s status w)
      as (o1 & w1 & evs1 & Heq1 & Ho1 & Ht1 & Hq1 & Hb1).
    cbn [End.statuses_loop]. unfold bind at 1. rewrite Heq1.
    destruct Ho1 as [-> | ->].
    + destruct (IH w1) as (o2 & w2 & evs2 & Heq2 & Ht2 & Hq2 & Hb2).
      exists o2, w2, (evs1 ++ evs2). split; [exact Heq2|].
      split; [by rewrite Ht2, Ht1, app_assoc|]. split; [by apply Forall_app|].
      etrans; [|exact Hb2]. rewrite Hb1. by apply prefix_app_r.
    + exists (Raise WebDriverException), w1, evs1. split; [done|]. split; [done|].
      split; [done|]. rewrite Hb1. by apply prefix_app_r.
Qed.

Lemma end_quiet_existsb (evs : list End.event) :
  Forall (fun e => end_is_export e = false) evs -> existsb end_is_export evs = false.
Proof.
  induction 1 as [|e evs He _ IH]; cbn; [done|]. by rewrite He, IH.
Qed.


(** * The whole of scraper.py *)

Lemma load_processed_bid_ids_logs (read_back : pyval -> string) (w : world) :
  exists l msg,
    load_processed_bid_ids read_back w
    = (Ret (loaded_ids read_back (w_file w)),
       World (w_file w) (w_io w) (w_seen w) (w_trace w ++ [Log l msg])).
Proof.
  destruct w as [f ios seen tr]. unfold load_processed_bid_ids, loaded_ids.
  destruct f as [| |wb]; cbn.
  - eexists _, _. reflexivity.
  - eexists _, _. reflexivity.
  - unfold catch, bind, path_exists, read_excel, load_workbook. cbn.
    destruct (bool_decide ("Bid ID" ∈ wb_header wb)); eexists _, _; reflexivity.
Qed.

(** On a browser that does what it is asked, [main_with] is [main]. *)
Lemma main_with_obliging_browser (read_back : pyval -> string) (s : site) :
  main_with read_back (Browser true true true) s = main read_back s.
Proof.
  reflexivity.
Qed.

